(** * proxmox_snap_info: listing the snapshots of a Proxmox VE instance

    A shallow embedding of [plugins/modules/proxmox_snap_info.py] and the
    properties of its two functions, [get_proxmox_snapshotlist] and [main].

    Conventions of the embedding.
    - In the model of a whole run the numbers that measure time
      ([time.time()], the ["snaptime"] of a record) are exact rationals [Q];
      [/] is the true division the module asks for with
      [from __future__ import division]. Line 150 as Python computes it, in
      IEEE 754 double precision, is modelled apart ([for_loop64]), and so
      are the entries with a missing key ([for_loop_entries]).
    - [module.exit_json], [module.fail_json] and an exception of the Proxmox
      helper end the run: they are the three ways a run can halt.
    - The Proxmox helper class, the clock and the import flag form the
      [world] the module runs in; every call to them is recorded in a trace. *)

From Stdlib Require Import String List ZArith QArith Bool Lia SpecFloat.
Import ListNotations.
Open Scope string_scope.

(** ** Python values and truthiness *)

(** What the local variable [vmid] can hold: [None], the [str] taken from the
    module parameters, or whatever [get_vmid] answered (an [int] in practice). *)
Inductive ident : Type :=
| INone
| IStr (s : string)
| IInt (n : Z).

(** [bool(s)] for a [str]. *)
Definition truthy_str (s : string) : bool :=
  match s with
  | EmptyString => false
  | String _ _ => true
  end.

(** [bool(p)] for a parameter of type [str] that may be [None]. *)
Definition truthy_opt (p : option string) : bool :=
  match p with
  | None => false
  | Some s => truthy_str s
  end.

(** [bool(v)] for an identifier. *)
Definition truthy_ident (v : ident) : bool :=
  match v with
  | INone => false
  | IStr s => truthy_str s
  | IInt n => negb (n =? 0)%Z
  end.

(** [bool(l)] for a value that is [None] or a list. *)
Definition truthy_list {A : Type} (l : option (list A)) : bool :=
  match l with
  | None => false
  | Some [] => false
  | Some (_ :: _) => true
  end.

(** A parameter seen as an identifier. *)
Definition ident_of_param (p : option string) : ident :=
  match p with
  | None => INone
  | Some s => IStr s
  end.

(** [x > y] on numbers. *)
Definition Qgtb (x y : Q) : bool := negb (Qle_bool x y).

(** ** Snapshot records *)

(** One entry of the list the API returns: the keys the module reads. *)
Record snapshot : Type := mkSnapshot {
  name : string;
  snaptime : Q
}.

(** The keyword arguments of [module.exit_json]. *)
Record exit_kwargs : Type := mkExit {
  changed : bool;
  msg : option string;
  results : option (list string)
}.

(** How a run ends. *)
Inductive outcome : Type :=
| ExitJson (kw : exit_kwargs)
| FailJson (message : string) (exception : option string)
| Uncaught (e : string).

(** The answer of the Proxmox helper to one call: a value, or a failure that
    this module does not catch. *)
Inductive call (A : Type) : Type :=
| Returns (a : A)
| Raises (e : string).
Arguments Returns {A} a.
Arguments Raises {A} e.

Section ProxmoxSnapInfo.

(** The authentication parameters ([proxmox_auth_argument_spec]) and the
    description of an instance ([get_vm]) belong to the helper library. *)
Context {AuthArgs VM : Type}.

(** [module.params]. *)
Record AnsibleModule : Type := mkModule {
  auth : AuthArgs;
  vmid : option string;
  hostname : option string;
  timeout : Z;
  snapname : option string;
  older_than : Z
}.

(** The methods of [ProxmoxSnapAnsible] the module calls;
    [snapshot_get vm vmid] is [snapshot(vm, vmid).get()]. *)
Record ProxmoxSnapAnsible : Type := mkProxmox {
  get_vmid : option string -> call ident;
  get_vm : ident -> call VM;
  snapshot_get : VM -> ident -> call (option (list snapshot))
}.

(** Everything outside the module: the import flag and its diagnostic, the
    constructor of the helper, the successive readings of [time.time()] and
    the text [missing_required_lib] builds. *)
Record world : Type := mkWorld {
  HAS_PROXMOX_SNAP : bool;
  PROXMOX_SNAP_IMPORT_ERROR : option string;
  new_ProxmoxSnapAnsible : AnsibleModule -> call ProxmoxSnapAnsible;
  time_time : nat -> Q;
  missing_required_lib : string -> string
}.

(** The calls a run makes, in the order it makes them. *)
Inductive event : Type :=
| ev_new (module : AnsibleModule)
| ev_get_vmid (hostname : option string)
| ev_get_vm (vmid : ident)
| ev_snapshot_get (vm : VM) (vmid : ident)
| ev_time.

(** The state threaded through a run: how many clock readings were taken and
    the calls made so far. *)
Record state : Type := mkState {
  ticks : nat;
  trace : list event
}.

Definition initial : state := mkState 0 [].

Definition log (e : event) (st : state) : state :=
  mkState (ticks st) (trace st ++ [e]).

(** ** The monad of runs *)

Inductive step (A : Type) : Type :=
| Next (a : A) (st : state)
| Halt (o : outcome) (st : state).
Arguments Next {A} a st.
Arguments Halt {A} o st.

Definition M (A : Type) : Type := state -> step A.

Definition ret {A : Type} (a : A) : M A := fun st => Next a st.

Definition bind {A B : Type} (c : M A) (k : A -> M B) : M B :=
  fun st =>
    match c st with
    | Next a st' => k a st'
    | Halt o st' => Halt o st'
    end.

Notation "x <- c ;; k" := (bind c (fun x => k))
  (at level 61, c at next level, right associativity).

(** [module.exit_json] with the keyword arguments [kw]. *)
Definition exit_json {A : Type} (kw : exit_kwargs) : M A :=
  fun st => Halt (ExitJson kw) st.

(** [module.fail_json] with its [msg] and [exception]. *)
Definition fail_json {A : Type} (message : string) (exception : option string) : M A :=
  fun st => Halt (FailJson message exception) st.

(** A call to the helper: recorded, and a failure of the helper halts. *)
Definition invoke {A : Type} (e : event) (r : call A) : M A :=
  fun st =>
    match r with
    | Returns a => Next a (log e st)
    | Raises x => Halt (Uncaught x) (log e st)
    end.

(** [time.time()]: the next reading of the clock. *)
Definition read_clock (w : world) : M Q :=
  fun st => Next (time_time w (ticks st)) (mkState (S (ticks st)) (trace st ++ [ev_time])).

(** ** The module *)

(** Lines 98-110. *)
Definition get_proxmox_snapshotlist (w : world) (module : AnsibleModule)
    (hostname vmid : option string) : M (list snapshot) :=
  proxmox <- invoke (ev_new module) (new_ProxmoxSnapAnsible w module) ;;
  vmid <- (if negb (truthy_opt vmid) && truthy_opt hostname then
             invoke (ev_get_vmid hostname) (get_vmid proxmox hostname)
           else if negb (truthy_opt vmid) then
             exit_json (mkExit false (Some "Vmid could not be fetched") None)
           else ret (ident_of_param vmid)) ;;
  vm <- invoke (ev_get_vm vmid) (get_vm proxmox vmid) ;;
  snapshotlist <- invoke (ev_snapshot_get vm vmid) (snapshot_get proxmox vm vmid) ;;
  match snapshotlist with
  | None | Some [] =>
      exit_json (mkExit false (Some "Snapshots could not be fetched") None)
  | Some l => ret l
  end.

(** Lines 147-149: the record is skipped because of its name. *)
Definition prefix_rejects (snapname : option string) (s : snapshot) : bool :=
  match snapname with
  | Some p => truthy_str p && negb (String.prefix p (name s))
  | None => false
  end.

(** Line 150: the age of the record in days, at the reading [t] of the
    clock, in exact arithmetic; [age_days64] is the same in double
    precision. *)
Definition age_days (t : Q) (s : snapshot) : Q :=
  (t - snaptime s) / 60 / 60 / 24.

(** Lines 144-151, with [oldsnapshotlist] as the accumulator, on records
    that have both keys; the [KeyError] of an entry with a missing key is
    in [for_loop_entries]. *)
Fixpoint for_loop (w : world) (snapname : option string) (older_than : Z)
    (snapshotlist : list snapshot) (oldsnapshotlist : list string) : M (list string) :=
  match snapshotlist with
  | [] => ret oldsnapshotlist
  | s :: rest =>
      if (name s =? "current")%string then
        for_loop w snapname older_than rest oldsnapshotlist
      else if prefix_rejects snapname s then
        for_loop w snapname older_than rest oldsnapshotlist
      else
        t <- read_clock w ;;
        if Qgtb (age_days t s) (inject_Z older_than) then
          for_loop w snapname older_than rest (oldsnapshotlist ++ [name s])
        else
          for_loop w snapname older_than rest oldsnapshotlist
  end.

(** Lines 129-158, from the module that [AnsibleModule] built on lines
    114-127 (the validation of the arguments belongs to that class). A run
    of [main] never returns: it always halts. The local [timeout] of line
    138 is read from the parameters and used nowhere. *)
Definition main (w : world) (module : AnsibleModule) : M Empty_set :=
  _ <- (if negb (HAS_PROXMOX_SNAP w) then
          fail_json (missing_required_lib w "proxmox_snap") (PROXMOX_SNAP_IMPORT_ERROR w)
        else ret tt) ;;
  snapshotlist <- get_proxmox_snapshotlist w module (hostname module) (vmid module) ;;
  oldsnapshotlist <- for_loop w (snapname module) (older_than module) snapshotlist [] ;;
  exit_json (mkExit false None (Some oldsnapshotlist)).

(** The outcome and the final state of a run of [main] from the initial state. *)
Definition run (w : world) (module : AnsibleModule) : outcome * state :=
  match main w module initial with
  | Next e _ => match e with end
  | Halt o st => (o, st)
  end.

End ProxmoxSnapInfo.

Arguments AnsibleModule : clear implicits.
Arguments ProxmoxSnapAnsible : clear implicits.
Arguments world : clear implicits.
Arguments event : clear implicits.
Arguments state : clear implicits.
Arguments step : clear implicits.
Arguments M : clear implicits.
Arguments Next {AuthArgs VM A} a st.
Arguments Halt {AuthArgs VM A} o st.

(** ** The filter as the specification words it *)

(** The record gets as far as line 150, where the clock is read. *)
Definition reads_clock (snapname : option string) (s : snapshot) : bool :=
  negb (name s =? "current")%string && negb (prefix_rejects snapname s).

(** Each record of the list with the reading of the clock at its turn, the
    clock having been read [k] times before. A record skipped for its name
    takes no reading: it is paired with the one the next record will get. *)
Fixpoint examined (clock : nat -> Q) (k : nat) (snapname : option string)
    (l : list snapshot) : list (snapshot * Q) :=
  match l with
  | [] => []
  | s :: rest =>
      (s, clock k) :: examined clock (if reads_clock snapname s then S k else k) snapname rest
  end.

(** The three checks of the specification at the time [currentTime]: not
    the live state, the prefix when one is given, strictly older than
    [olderThanDays] days of 86400 seconds. *)
Definition spec_passes (snapNamePrefix : option string) (olderThanDays : Z)
    (currentTime : Q) (s : snapshot) : bool :=
  negb (name s =? "current")%string
  && match snapNamePrefix with
     | Some p => String.prefix p (name s)
     | None => true
     end
  && Qgtb ((currentTime - snaptime s) / 86400) (inject_Z olderThanDays).

(** The names of the records that pass, in the order of the list. *)
Definition spec_results (snapNamePrefix : option string) (olderThanDays : Z)
    (l : list (snapshot * Q)) : list string :=
  map (fun e => name (fst e))
      (filter (fun e => spec_passes snapNamePrefix olderThanDays (snd e) (fst e)) l).

(** The identifier the lookup of the instance is made with. *)
Inductive resolves {AuthArgs VM : Type} (p : ProxmoxSnapAnsible VM)
    (m : AnsibleModule AuthArgs) : ident -> Prop :=
| resolves_vmid :
    truthy_opt (vmid m) = true ->
    resolves p m (ident_of_param (vmid m))
| resolves_hostname (v : ident) :
    truthy_opt (vmid m) = false ->
    truthy_opt (hostname m) = true ->
    get_vmid p (hostname m) = Returns v ->
    resolves p m v.

(** Two answers of the constructor of the helper that cannot be told apart
    by the calls made for the identifier [v]. *)
Definition same_answers {VM : Type} (v : ident)
    (c1 c2 : call (ProxmoxSnapAnsible VM)) : Prop :=
  match c1, c2 with
  | Returns p1, Returns p2 =>
      get_vm p1 v = get_vm p2 v
      /\ forall vm, snapshot_get p1 vm v = snapshot_get p2 vm v
  | Raises e1, Raises e2 => e1 = e2
  | _, _ => False
  end.

(** The call to [get_vmid], when the run makes it. *)
Definition resolution_events {AuthArgs VM : Type} (m : AnsibleModule AuthArgs) :
    list (event AuthArgs VM) :=
  if negb (truthy_opt (vmid m)) && truthy_opt (hostname m)
  then [ev_get_vmid (hostname m)] else [].


Definition with_hostname {AuthArgs : Type} (h : option string)
    (m : AnsibleModule AuthArgs) : AnsibleModule AuthArgs :=
  mkModule (auth m) (vmid m) h (timeout m) (snapname m) (older_than m).

(** The soft outcome: a successful exit that carries a message and no list. *)
Definition soft_outcome (o : outcome) (message : string) : Prop :=
  o = ExitJson (mkExit false (Some message) None).

(** ** A cluster to run the module on *)

Module Scenario.

(** The raw list of scenario A at the time [t]. *)
Definition raw (t : Q) : list snapshot :=
  [ mkSnapshot "current" t;
    mkSnapshot "daily_1" (t - 3 * 86400);
    mkSnapshot "daily_2" (t - 1 * 86400) ].

(** A helper that knows the instance 100 under the name [web] only, finds
    no instance for a falsy identifier, and answers the list [l]. *)
Definition helper (l : option (list snapshot)) : ProxmoxSnapAnsible string :=
  mkProxmox
    (fun h => match h with
              | Some "web" => Returns (IInt 100)
              | _ => Returns INone
              end)
    (fun v => if truthy_ident v then Returns "pve" else Raises "no such instance")
    (fun _ _ => Returns l).

(** A world whose clock stands still at [t]. *)
Definition frozen (t : Q) (l : option (list snapshot)) : world unit string :=
  mkWorld true None (fun _ => Returns (helper l)) (fun _ => t)
          (fun lib => "Failed to import the required Python library (" ++ lib ++ ")").

(** The instant of the examples, and the cluster at that instant: with the
    snapshots of scenario A, and with none. *)
Definition t0 : Q := 1700000000.

Definition cluster : world unit string := frozen t0 (Some (raw t0)).

Definition bare_cluster : world unit string := frozen t0 (Some []).

Definition by_vmid (snapname : option string) (older_than : Z) : AnsibleModule unit :=
  mkModule tt (Some "100") None 30 snapname older_than.

Definition by_hostname (h : string) (older_than : Z) : AnsibleModule unit :=
  mkModule tt None (Some h) 30 None older_than.

Definition anonymous : AnsibleModule unit :=
  mkModule tt None None 30 None 0.

End Scenario.

(** ** Further notions: answers, order of calls, parameters, raw entries *)

(** What a computation returns or how it halts, the state left aside. *)
Definition answer {AuthArgs VM A : Type} (r : step AuthArgs VM A) : A + outcome :=
  match r with
  | Next a _ => inl a
  | Halt o _ => inr o
  end.

(** The exit that delivers the list [r]. *)
Definition delivers (o : outcome) (r : list string) : Prop :=
  o = ExitJson (mkExit false None (Some r)).

(** A subsequence: elements dropped, order kept. *)
Inductive subseq {A : Type} : list A -> list A -> Prop :=
| subseq_nil : subseq [] []
| subseq_skip (x : A) (l1 l2 : list A) : subseq l1 l2 -> subseq l1 (x :: l2)
| subseq_keep (x : A) (l1 l2 : list A) : subseq l1 l2 -> subseq (x :: l1) (x :: l2).

(** The place of a call in the text of the module: lines 99, 101, 105,
    106 and 150. *)
Definition stage {AuthArgs VM : Type} (e : event AuthArgs VM) : nat :=
  match e with
  | ev_new _ => 0
  | ev_get_vmid _ => 1
  | ev_get_vm _ => 2
  | ev_snapshot_get _ _ => 3
  | ev_time => 4
  end.

(** A call to the helper that the run makes, and that fails with [e]. *)
Inductive raises_on_path {AuthArgs VM : Type} (w : world AuthArgs VM)
    (m : AnsibleModule AuthArgs) (e : string) : Prop :=
| raises_new :
    new_ProxmoxSnapAnsible w m = Raises e ->
    raises_on_path w m e
| raises_get_vmid (p : ProxmoxSnapAnsible VM) :
    new_ProxmoxSnapAnsible w m = Returns p ->
    truthy_opt (vmid m) = false ->
    truthy_opt (hostname m) = true ->
    get_vmid p (hostname m) = Raises e ->
    raises_on_path w m e
| raises_get_vm (p : ProxmoxSnapAnsible VM) (v : ident) :
    new_ProxmoxSnapAnsible w m = Returns p ->
    resolves p m v ->
    get_vm p v = Raises e ->
    raises_on_path w m e
| raises_snapshot_get (p : ProxmoxSnapAnsible VM) (v : ident) (vm : VM) :
    new_ProxmoxSnapAnsible w m = Returns p ->
    resolves p m v ->
    get_vm p v = Returns vm ->
    snapshot_get p vm v = Raises e ->
    raises_on_path w m e.

(** The state after further calls of the helper. *)
Definition after {AuthArgs VM : Type} (st : state AuthArgs VM)
    (calls : list (event AuthArgs VM)) : state AuthArgs VM :=
  mkState (ticks st) (trace st ++ calls).

(** The seven ways through lines 98-110, each with the calls it makes. *)
Inductive fetch_path {AuthArgs VM : Type} (w : world AuthArgs VM)
    (m : AnsibleModule AuthArgs) (st : state AuthArgs VM) :
    step AuthArgs VM (list snapshot) -> Prop :=
| path_new_raises (e : string) :
    new_ProxmoxSnapAnsible w m = Raises e ->
    fetch_path w m st (Halt (Uncaught e) (after st [ev_new m]))
| path_unidentified (p : ProxmoxSnapAnsible VM) :
    new_ProxmoxSnapAnsible w m = Returns p ->
    truthy_opt (vmid m) = false ->
    truthy_opt (hostname m) = false ->
    fetch_path w m st
      (Halt (ExitJson (mkExit false (Some "Vmid could not be fetched") None))
            (after st [ev_new m]))
| path_get_vmid_raises (p : ProxmoxSnapAnsible VM) (e : string) :
    new_ProxmoxSnapAnsible w m = Returns p ->
    truthy_opt (vmid m) = false ->
    truthy_opt (hostname m) = true ->
    get_vmid p (hostname m) = Raises e ->
    fetch_path w m st
      (Halt (Uncaught e) (after st [ev_new m; ev_get_vmid (hostname m)]))
| path_get_vm_raises (p : ProxmoxSnapAnsible VM) (v : ident) (e : string) :
    new_ProxmoxSnapAnsible w m = Returns p ->
    resolves p m v ->
    get_vm p v = Raises e ->
    fetch_path w m st
      (Halt (Uncaught e) (after st ([ev_new m] ++ resolution_events m ++ [ev_get_vm v])))
| path_snapshot_get_raises (p : ProxmoxSnapAnsible VM) (v : ident) (vm : VM)
    (e : string) :
    new_ProxmoxSnapAnsible w m = Returns p ->
    resolves p m v ->
    get_vm p v = Returns vm ->
    snapshot_get p vm v = Raises e ->
    fetch_path w m st
      (Halt (Uncaught e)
            (after st ([ev_new m] ++ resolution_events m
                         ++ [ev_get_vm v; ev_snapshot_get vm v])))
| path_nothing (p : ProxmoxSnapAnsible VM) (v : ident) (vm : VM)
    (r : option (list snapshot)) :
    new_ProxmoxSnapAnsible w m = Returns p ->
    resolves p m v ->
    get_vm p v = Returns vm ->
    snapshot_get p vm v = Returns r ->
    truthy_list r = false ->
    fetch_path w m st
      (Halt (ExitJson (mkExit false (Some "Snapshots could not be fetched") None))
            (after st ([ev_new m] ++ resolution_events m
                         ++ [ev_get_vm v; ev_snapshot_get vm v])))
| path_list (p : ProxmoxSnapAnsible VM) (v : ident) (vm : VM) (l : list snapshot) :
    new_ProxmoxSnapAnsible w m = Returns p ->
    resolves p m v ->
    get_vm p v = Returns vm ->
    snapshot_get p vm v = Returns (Some l) ->
    l <> [] ->
    fetch_path w m st
      (Next l (after st ([ev_new m] ++ resolution_events m
                           ++ [ev_get_vm v; ev_snapshot_get vm v]))).

(** The empty string read as no value. *)
Definition blank_is_absent (p : option string) : option string :=
  match p with
  | Some EmptyString => None
  | _ => p
  end.

(** The same invocation, every empty string taken out. *)
Definition without_blanks {AuthArgs : Type} (m : AnsibleModule AuthArgs) :
    AnsibleModule AuthArgs :=
  mkModule (auth m) (blank_is_absent (vmid m)) (blank_is_absent (hostname m))
           (timeout m) (blank_is_absent (snapname m)) (older_than m).

(** The same invocation with another [older_than], another [snapname]. *)
Definition with_older_than {AuthArgs : Type} (d : Z) (m : AnsibleModule AuthArgs) :
    AnsibleModule AuthArgs :=
  mkModule (auth m) (vmid m) (hostname m) (timeout m) (snapname m) d.

Definition with_snapname {AuthArgs : Type} (q : option string)
    (m : AnsibleModule AuthArgs) : AnsibleModule AuthArgs :=
  mkModule (auth m) (vmid m) (hostname m) (timeout m) q (older_than m).

(** The prefix asked for by [snapname], if any, is a prefix of [q]: the
    names that start with [q] all pass the filter of [snapname]. *)
Definition wider_than (snapname : option string) (q : string) : Prop :=
  match snapname with
  | Some q0 => String.prefix q0 q = true
  | None => True
  end.

(** *** Entries of the list as the API sends them

    An entry is a dictionary: either of the two keys the module reads may
    be missing, and [s["key"]] then raises [KeyError]. *)
Record entry : Type := mkEntry {
  entry_name : option string;
  entry_snaptime : option Q
}.

Definition KeyError (key : string) : outcome :=
  Uncaught ("KeyError: '" ++ key ++ "'").

(** The entry of a record that has both keys. *)
Definition entry_of (s : snapshot) : entry :=
  mkEntry (Some (name s)) (Some (snaptime s)).

(** Lines 147-149 on a name. *)
Definition name_rejected (snapname : option string) (n : string) : bool :=
  match snapname with
  | Some p => truthy_str p && negb (String.prefix p n)
  | None => false
  end.

Section Entries.

Context {AuthArgs VM : Type}.

Notation "x <- c ;; k" := (bind c (fun x => k))
  (at level 61, c at next level, right associativity).

(** [s[key]] *)
Definition getitem {A : Type} (key : string) (field : option A) : M AuthArgs VM A :=
  fun st =>
    match field with
    | Some a => Next a st
    | None => Halt (KeyError key) st
    end.

(** Lines 144-151 on entries. In line 150 the clock is read before
    [s["snaptime"]] is looked up: the left operand of the subtraction is
    evaluated first. *)
Fixpoint for_loop_entries (w : world AuthArgs VM) (snapname : option string)
    (older_than : Z) (snapshotlist : list entry) (oldsnapshotlist : list string) :
    M AuthArgs VM (list string) :=
  match snapshotlist with
  | [] => ret oldsnapshotlist
  | s :: rest =>
      n <- getitem "name" (entry_name s) ;;
      if (n =? "current")%string then
        for_loop_entries w snapname older_than rest oldsnapshotlist
      else
        skip <- (if truthy_opt snapname then
                   n' <- getitem "name" (entry_name s) ;;
                   ret (name_rejected snapname n')
                 else ret false) ;;
        if skip then
          for_loop_entries w snapname older_than rest oldsnapshotlist
        else
          t <- read_clock w ;;
          snaptime <- getitem "snaptime" (entry_snaptime s) ;;
          if Qgtb ((t - snaptime) / 60 / 60 / 24) (inject_Z older_than) then
            n'' <- getitem "name" (entry_name s) ;;
            for_loop_entries w snapname older_than rest (oldsnapshotlist ++ [n''])
          else
            for_loop_entries w snapname older_than rest oldsnapshotlist
  end.

End Entries.

(** The entry can be processed: it has a name, and a time unless it is
    skipped for its name. *)
Definition entry_ok (snapname : option string) (e : entry) : bool :=
  match entry_name e with
  | None => false
  | Some n =>
      (n =? "current")%string
      || name_rejected snapname n
      || match entry_snaptime e with Some _ => true | None => false end
  end.

(** The record of an entry, with [filler] for a time that is missing. *)
Definition record_of (filler : Q) (e : entry) : snapshot :=
  mkSnapshot (match entry_name e with Some n => n | None => "" end)
             (match entry_snaptime e with Some t => t | None => filler end).

(** ** Line 150 in double precision

    [time.time()] is a [float], an IEEE 754 binary64 number; the
    ["snaptime"] of an entry is an [int] (or a [float]), and [older_than]
    is an [int]. The subtraction converts an [int] to the nearest [float]
    (or raises [OverflowError]) and rounds, each of the three divisions
    rounds, and the comparison of the [float] with the [int] is exact. *)

(** A Python number. *)
Inductive number : Type :=
| Int (z : Z)
| Float (x : spec_float).

(** The [float] nearest to an [int], ties to even. *)
Definition float_of_int (z : Z) : spec_float :=
  binary_normalize 53 1024 z 0 false.

(** The operand of a [float] operation: a [float] as it is, an [int]
    converted; an [int] too large for a [float] has none. *)
Definition as_float (n : number) : option spec_float :=
  match n with
  | Float x => Some x
  | Int z =>
      match float_of_int z with
      | S754_infinity _ => None
      | x => Some x
      end
  end.

(** [(t - x) / 60 / 60 / 24] on floats. *)
Definition age_days64 (t x : spec_float) : spec_float :=
  SFdiv 53 1024
    (SFdiv 53 1024
       (SFdiv 53 1024 (SFsub 53 1024 t x) (float_of_int 60))
       (float_of_int 60))
    (float_of_int 24).

(** [x > d] for a [float] and an [int]: no rounding of [d]. *)
Definition float_gt_int (x : spec_float) (d : Z) : bool :=
  match x with
  | S754_nan => false
  | S754_infinity s => negb s
  | S754_zero _ => (d <? 0)%Z
  | S754_finite s m e =>
      if (0 <=? e)%Z then (d <? cond_Zopp s (Zpos m) * 2 ^ e)%Z
      else (d * 2 ^ (- e) <? cond_Zopp s (Zpos m))%Z
  end.

(** The rational a finite [float] stands for. *)
Definition double_value (x : spec_float) : option Q :=
  match x with
  | S754_zero _ => Some 0%Q
  | S754_finite s m e =>
      Some (if (0 <=? e)%Z then inject_Z (cond_Zopp s (Zpos m) * 2 ^ e)
            else Qmake (cond_Zopp s (Zpos m)) (Z.to_pos (2 ^ (- e))))
  | S754_infinity _ | S754_nan => None
  end.

(** An entry with its time as Python has it. *)
Record snapshot64 : Type := mkSnapshot64 {
  name64 : string;
  snaptime64 : number
}.

Section Doubles.

Context {AuthArgs VM : Type}.

Notation "x <- c ;; k" := (bind c (fun x => k))
  (at level 61, c at next level, right associativity).

(** [time.time()], a [float]. *)
Definition read_clock64 (clock : nat -> spec_float) : M AuthArgs VM spec_float :=
  fun st =>
    Next (clock (ticks st)) (mkState (S (ticks st)) (trace st ++ [ev_time])).

(** The right operand of the subtraction of line 150 as a [float]. *)
Definition operand (n : number) : M AuthArgs VM spec_float :=
  fun st =>
    match as_float n with
    | Some x => Next x st
    | None => Halt (Uncaught "OverflowError") st
    end.

(** Lines 144-151 with the arithmetic of line 150 in double precision;
    the clock is read before the [int] is converted. *)
Fixpoint for_loop64 (clock : nat -> spec_float) (snapname : option string)
    (older_than : Z) (snapshotlist : list snapshot64) (oldsnapshotlist : list string) :
    M AuthArgs VM (list string) :=
  match snapshotlist with
  | [] => ret oldsnapshotlist
  | s :: rest =>
      if (name64 s =? "current")%string then
        for_loop64 clock snapname older_than rest oldsnapshotlist
      else if name_rejected snapname (name64 s) then
        for_loop64 clock snapname older_than rest oldsnapshotlist
      else
        t <- read_clock64 clock ;;
        x <- operand (snaptime64 s) ;;
        if float_gt_int (age_days64 t x) older_than then
          for_loop64 clock snapname older_than rest (oldsnapshotlist ++ [name64 s])
        else
          for_loop64 clock snapname older_than rest oldsnapshotlist
  end.

End Doubles.

(** ** More clusters *)

Module Cases.

(** A clock that advances by one second at each reading. *)
Definition ticking (t : Q) (l : option (list snapshot)) : world unit string :=
  mkWorld true None (fun _ => Returns (Scenario.helper l))
          (fun k => t + inject_Z (Z.of_nat k))
          (fun lib => "Failed to import the required Python library (" ++ lib ++ ")").

(** A cluster that cannot be reached. *)
Definition unreachable : world unit string :=
  mkWorld true None (fun _ => Raises "connection refused") (fun _ => Scenario.t0)
          (fun lib => "Failed to import the required Python library (" ++ lib ++ ")").

(** The list of scenario A as the API sends it: the live state has no
    ["snaptime"]. *)
Definition sent (t : Q) : list entry :=
  [ mkEntry (Some "current") None;
    mkEntry (Some "daily_1") (Some (t - 3 * 86400));
    mkEntry (Some "daily_2") (Some (t - 1 * 86400)) ].

(** The list of scenario A with whole seconds, and a clock that stands
    still at [float(z)]. *)
Definition raw64 (z : Z) : list snapshot64 :=
  [ mkSnapshot64 "current" (Int z);
    mkSnapshot64 "daily_1" (Int (z - 3 * 86400));
    mkSnapshot64 "daily_2" (Int (z - 1 * 86400)) ].

Definition frozen64 (z : Z) : nat -> spec_float := fun _ => float_of_int z.



End Cases.

(** * Properties *)

Section Properties.

Context {AuthArgs VM : Type}.
Local Open Scope list_scope.
Implicit Types (w : world AuthArgs VM) (m : AnsibleModule AuthArgs)
  (p : ProxmoxSnapAnsible VM) (st : state AuthArgs VM) (s : snapshot)
  (l : list snapshot) (t : Q) (d : Z).

(** ** Numbers *)

Lemma Qgtb_true_iff (x y : Q) : Qgtb x y = true <-> (y < x)%Q.
Proof.
  unfold Qgtb. rewrite negb_true_iff, <- not_true_iff_false, Qle_bool_iff.
  split; [apply Qnot_le_lt | apply Qlt_not_le].
Qed.

#[local] Instance Qgtb_comp : Proper (Qeq ==> Qeq ==> eq) Qgtb.
Proof. intros x x' Hx y y' Hy. unfold Qgtb. now rewrite Hx, Hy. Qed.

(** Dividing by 60, 60 and 24 is dividing by the seconds of a day. *)
Lemma age_days_86400 t s : (age_days t s == (t - snaptime s) / 86400)%Q.
Proof. unfold age_days. field. Qed.

(** ** The loop *)

Lemma prefix_rejects_false (snapname : option string) s :
  prefix_rejects snapname s = false ->
  match snapname with
  | Some q => String.prefix q (name s)
  | None => true
  end = true.
Proof.
  unfold prefix_rejects. destruct snapname as [q|]; [|reflexivity].
  destruct q as [|c q]; [intros _; destruct (name s); reflexivity|]. simpl truthy_str.
  rewrite andb_true_l, negb_false_iff. trivial.
Qed.

Lemma prefix_rejects_true (snapname : option string) s :
  prefix_rejects snapname s = true ->
  match snapname with
  | Some q => String.prefix q (name s)
  | None => true
  end = false.
Proof.
  unfold prefix_rejects. destruct snapname as [q|]; [|discriminate].
  rewrite andb_true_iff, negb_true_iff. tauto.
Qed.

(** A record that reads the clock is kept exactly when it is old enough. *)
Lemma spec_passes_reads (snapname : option string) d t s :
  reads_clock snapname s = true ->
  spec_passes snapname d t s = Qgtb (age_days t s) (inject_Z d).
Proof.
  unfold reads_clock, spec_passes. rewrite andb_true_iff, !negb_true_iff.
  intros [Hc Hp]. rewrite Hc, (prefix_rejects_false _ _ Hp). simpl.
  now rewrite age_days_86400.
Qed.

(** A record skipped for its name is not kept. *)
Lemma spec_passes_skips (snapname : option string) d t s :
  reads_clock snapname s = false ->
  spec_passes snapname d t s = false.
Proof.
  unfold reads_clock, spec_passes. rewrite andb_false_iff, !negb_false_iff.
  intros [Hc | Hp].
  - now rewrite Hc.
  - rewrite (prefix_rejects_true _ _ Hp). apply andb_false_iff. left. apply andb_false_r.
Qed.

(** The loop never halts; it appends to the accumulator the names the
    specification selects, and reads the clock once for each record that is
    not skipped for its name. *)
Lemma for_loop_spec w (snapname : option string) d l :
  forall (acc : list string) st,
  exists st',
    for_loop w snapname d l acc st
    = Next (acc ++ spec_results snapname d (examined (time_time w) (ticks st) snapname l)) st'
    /\ ticks st' = (ticks st + length (filter (reads_clock snapname) l))%nat
    /\ trace st' = trace st ++ repeat ev_time (length (filter (reads_clock snapname) l)).
Proof.
  induction l as [|s rest IH]; intros acc st.
  - exists st. simpl. unfold ret, spec_results. simpl.
    now rewrite !app_nil_r, Nat.add_0_r.
  - simpl for_loop. simpl examined. simpl filter. unfold spec_results. simpl filter.
    destruct (reads_clock snapname s) eqn:Hr.
    + pose proof Hr as Hr'. unfold reads_clock in Hr'.
      rewrite andb_true_iff, !negb_true_iff in Hr'. destruct Hr' as [Hc Hp].
      rewrite Hc, Hp. unfold bind, read_clock.
      rewrite (spec_passes_reads _ d _ _ Hr). simpl fst. simpl snd.
      destruct (Qgtb (age_days (time_time w (ticks st)) s) (inject_Z d)).
      * destruct (IH (acc ++ [name s])
                     (mkState (S (ticks st)) (trace st ++ [ev_time]))) as (st' & E & Ht & Hl).
        exists st'. rewrite E. simpl in *. unfold spec_results.
        rewrite <- app_assoc. simpl. repeat split; trivial.
        -- lia.
        -- now rewrite Hl, <- app_assoc.
      * destruct (IH acc (mkState (S (ticks st)) (trace st ++ [ev_time]))) as (st' & E & Ht & Hl).
        exists st'. rewrite E. simpl in *. repeat split; trivial.
        -- lia.
        -- now rewrite Hl, <- app_assoc.
    + rewrite (spec_passes_skips _ d _ _ Hr).
      destruct (IH acc st) as (st' & E & Ht & Hl).
      exists st'. unfold reads_clock in Hr.
      rewrite andb_false_iff, !negb_false_iff in Hr.
      destruct (name s =? "current")%string eqn:Hc.
      * now rewrite E.
      * destruct Hr as [Hr|Hr]; [discriminate|]. rewrite Hr. now rewrite E.
Qed.

(** ** The fetch *)

(** Case analysis on the tests of the fetch and on every answer of the
    helper along it. *)
Ltac fetch_paths :=
  unfold get_proxmox_snapshotlist, bind, invoke, exit_json, ret, log;
  repeat match goal with
    | |- context [match ?c with Returns _ => _ | Raises _ => _ end] =>
        destruct c as [?|?]; simpl
    | |- context [match ?c with Some _ => _ | None => _ end] =>
        destruct c as [[|? ?]|]; simpl
    | |- context [if ?b then _ else _] => destruct b; simpl
    end.

(** The fetch returns a list exactly along the path: helper built,
    identifier resolved, instance found, non-empty list answered. *)
Lemma fetch_returns w m p (v : ident) (vm : VM) l st :
  new_ProxmoxSnapAnsible w m = Returns p ->
  resolves p m v ->
  get_vm p v = Returns vm ->
  snapshot_get p vm v = Returns (Some l) ->
  l <> [] ->
  get_proxmox_snapshotlist w m (hostname m) (vmid m) st
  = Next l (mkState (ticks st)
                    (trace st ++ [ev_new m] ++ resolution_events m
                              ++ [ev_get_vm v; ev_snapshot_get vm v])).
Proof.
  intros Hnew Hres Hvm Hget Hne.
  unfold get_proxmox_snapshotlist, bind, invoke, resolution_events.
  rewrite Hnew.
  destruct Hres as [Hv | v Hv Hh Hr].
  - rewrite Hv. simpl. unfold ret. rewrite Hvm, Hget.
    destruct l; [contradiction|]. unfold log. simpl.
    now rewrite <- !app_assoc.
  - rewrite Hv, Hh. simpl. rewrite Hr, Hvm, Hget.
    destruct l; [contradiction|]. unfold ret, log. simpl.
    now rewrite <- !app_assoc.
Qed.

(** The fetch reads no clock, whatever its end. *)
Lemma fetch_no_clock w m st :
  match get_proxmox_snapshotlist w m (hostname m) (vmid m) st with
  | Next _ st' | Halt _ st' =>
      ticks st' = ticks st
      /\ exists evs, trace st' = trace st ++ evs /\ ~ In ev_time evs
  end.
Proof.
  fetch_paths; (split; [reflexivity|]); rewrite <- ?app_assoc;
    (eexists; split; [reflexivity|]); simpl; intuition discriminate.
Qed.

(** When the fetch halts, it is on a failure of the helper or on one of
    the two soft outcomes. *)
Lemma fetch_halts w m st (o : outcome) st' :
  get_proxmox_snapshotlist w m (hostname m) (vmid m) st = Halt o st' ->
  (exists e, o = Uncaught e)
  \/ soft_outcome o "Vmid could not be fetched"
  \/ soft_outcome o "Snapshots could not be fetched".
Proof.
  unfold soft_outcome.
  fetch_paths; intros E; try discriminate; injection E as <- _; eauto.
Qed.

(** With neither identifier the fetch stops as soon as the helper is built. *)
Lemma fetch_unidentified w m p st :
  new_ProxmoxSnapAnsible w m = Returns p ->
  truthy_opt (vmid m) = false ->
  truthy_opt (hostname m) = false ->
  get_proxmox_snapshotlist w m (hostname m) (vmid m) st
  = Halt (ExitJson (mkExit false (Some "Vmid could not be fetched") None))
         (log (ev_new m) st).
Proof.
  intros Hnew Hv Hh. unfold get_proxmox_snapshotlist, bind, invoke.
  now rewrite Hnew, Hv, Hh.
Qed.

(** With a hostname only, the answer of [get_vmid] goes to [get_vm] as it is. *)
Lemma fetch_by_hostname w m p (v : ident) st :
  new_ProxmoxSnapAnsible w m = Returns p ->
  truthy_opt (vmid m) = false ->
  truthy_opt (hostname m) = true ->
  get_vmid p (hostname m) = Returns v ->
  get_proxmox_snapshotlist w m (hostname m) (vmid m) st
  = match get_vm p v with
    | Raises e =>
        Halt (Uncaught e) (log (ev_get_vm v) (log (ev_get_vmid (hostname m)) (log (ev_new m) st)))
    | Returns vm =>
        let st' := log (ev_snapshot_get vm v)
                     (log (ev_get_vm v) (log (ev_get_vmid (hostname m)) (log (ev_new m) st))) in
        match snapshot_get p vm v with
        | Raises e => Halt (Uncaught e) st'
        | Returns None | Returns (Some []) =>
            Halt (ExitJson (mkExit false (Some "Snapshots could not be fetched") None)) st'
        | Returns (Some l) => Next l st'
        end
    end.
Proof.
  intros Hnew Hv Hh Hr. unfold get_proxmox_snapshotlist, bind, invoke.
  rewrite Hnew, Hv, Hh. simpl. rewrite Hr.
  destruct (get_vm p v) as [vm|e]; [|reflexivity].
  destruct (snapshot_get p vm v) as [[[|s r]|]|e]; reflexivity.
Qed.

(** An empty or absent list stops the fetch after the four calls. *)
Lemma fetch_empty w m p (v : ident) (vm : VM) (r : option (list snapshot)) st :
  new_ProxmoxSnapAnsible w m = Returns p ->
  resolves p m v ->
  get_vm p v = Returns vm ->
  snapshot_get p vm v = Returns r ->
  truthy_list r = false ->
  get_proxmox_snapshotlist w m (hostname m) (vmid m) st
  = Halt (ExitJson (mkExit false (Some "Snapshots could not be fetched") None))
         (mkState (ticks st)
                  (trace st ++ [ev_new m] ++ resolution_events m
                            ++ [ev_get_vm v; ev_snapshot_get vm v])).
Proof.
  intros Hnew Hres Hvm Hget Hr.
  unfold get_proxmox_snapshotlist, bind, invoke, resolution_events.
  rewrite Hnew.
  destruct Hres as [Hv | v Hv Hh Hid].
  - rewrite Hv. simpl. unfold ret. rewrite Hvm, Hget.
    destruct r as [[|s r]|]; try discriminate; unfold exit_json, log; simpl;
      now rewrite <- !app_assoc.
  - rewrite Hv, Hh. simpl. rewrite Hid, Hvm, Hget.
    destruct r as [[|s r]|]; try discriminate; unfold exit_json, log; simpl;
      now rewrite <- !app_assoc.
Qed.

(** ** The whole run *)

(** Without the import the run fails before any call. *)
Lemma run_missing_lib w m :
  HAS_PROXMOX_SNAP w = false ->
  run w m = (FailJson (missing_required_lib w "proxmox_snap")
                      (PROXMOX_SNAP_IMPORT_ERROR w), initial).
Proof.
  intros H. unfold run, main, bind. now rewrite H.
Qed.

(** With the import, the run ends where the fetch halts, or exits with the
    names the loop selects from the fetched list. *)
Lemma run_fst w m :
  HAS_PROXMOX_SNAP w = true ->
  fst (run w m)
  = match get_proxmox_snapshotlist w m (hostname m) (vmid m) initial with
    | Halt o _ => o
    | Next l _ =>
        ExitJson (mkExit false None
          (Some (spec_results (snapname m) (older_than m)
                   (examined (time_time w) 0 (snapname m) l))))
    end.
Proof.
  intros H. unfold run, main, bind. rewrite H. simpl.
  pose proof (fetch_no_clock w m initial) as Hc.
  destruct (get_proxmox_snapshotlist w m (hostname m) (vmid m) initial) as [l st|o st];
    [|reflexivity].
  destruct Hc as [Ht _]. simpl in Ht.
  destruct (for_loop_spec w (snapname m) (older_than m) l [] st) as (st' & E & _).
  rewrite E, Ht. reflexivity.
Qed.

(** The calls of a run: those of the fetch, then the readings of the clock. *)
Lemma run_trace w m :
  HAS_PROXMOX_SNAP w = true ->
  trace (snd (run w m))
  = match get_proxmox_snapshotlist w m (hostname m) (vmid m) initial with
    | Halt _ st => trace st
    | Next l st =>
        trace st ++ repeat ev_time (length (filter (reads_clock (snapname m)) l))
    end.
Proof.
  intros H. unfold run, main, bind. rewrite H. simpl.
  destruct (get_proxmox_snapshotlist w m (hostname m) (vmid m) initial) as [l st|o st];
    [|reflexivity].
  destruct (for_loop_spec w (snapname m) (older_than m) l [] st) as (st' & E & _ & Hl).
  rewrite E. exact Hl.
Qed.

(** The run along the path on which a non-empty list is fetched. *)
Lemma run_lists w m p (v : ident) (vm : VM) l :
  HAS_PROXMOX_SNAP w = true ->
  new_ProxmoxSnapAnsible w m = Returns p ->
  resolves p m v ->
  get_vm p v = Returns vm ->
  snapshot_get p vm v = Returns (Some l) ->
  l <> [] ->
  fst (run w m)
  = ExitJson (mkExit false None
      (Some (spec_results (snapname m) (older_than m)
               (examined (time_time w) 0 (snapname m) l)))).
Proof.
  intros H Hnew Hres Hvm Hget Hne.
  rewrite (run_fst w m H), (fetch_returns w m p v vm l initial); trivial.
Qed.

(** Every list of names a run exits with is selected from a fetched list. *)
Lemma run_results_inv w m (kw : exit_kwargs) (r : list string) :
  fst (run w m) = ExitJson kw ->
  results kw = Some r ->
  exists l,
    kw = mkExit false None (Some r)
    /\ r = spec_results (snapname m) (older_than m)
                        (examined (time_time w) 0 (snapname m) l).
Proof.
  intros E Hr.
  destruct (HAS_PROXMOX_SNAP w) eqn:H.
  - rewrite (run_fst w m H) in E.
    destruct (get_proxmox_snapshotlist w m (hostname m) (vmid m) initial)
      as [l st|o st] eqn:G.
    + injection E as <-. simpl in Hr. injection Hr as <-. now exists l.
    + apply fetch_halts in G. subst o. unfold soft_outcome in G.
      destruct G as [[e G] | [G | G]]; try discriminate;
        injection G as ->; discriminate.
  - rewrite (run_missing_lib w m H) in E. discriminate.
Qed.

(** ** Names and lists *)

Lemma prefix_iff_append (q n : string) :
  String.prefix q n = true <-> exists rest, n = (q ++ rest)%string.
Proof.
  revert n. induction q as [|c q IH]; intros n.
  - split; [intros _; now exists n | intros _; now destruct n].
  - destruct n as [|c' n]; simpl.
    + split; [discriminate | intros [rest E]; discriminate].
    + destruct (Ascii.ascii_dec c c') as [->|Hc].
      * rewrite IH. split; intros [rest E]; exists rest.
        -- now rewrite E.
        -- now injection E.
      * split; [discriminate | intros [rest E]; injection E; intros; now subst].
Qed.

Lemma in_spec_results (snapname : option string) d (ex : list (snapshot * Q)) (n : string) :
  In n (spec_results snapname d ex) <->
  exists e, In e ex /\ name (fst e) = n /\ spec_passes snapname d (snd e) (fst e) = true.
Proof.
  unfold spec_results. rewrite in_map_iff. split.
  - intros (e & En & Hin). apply filter_In in Hin. destruct Hin. now exists e.
  - intros (e & Hin & En & Hp). exists e. split; trivial. apply filter_In. now split.
Qed.

Lemma spec_results_app (snapname : option string) d (e1 e2 : list (snapshot * Q)) :
  spec_results snapname d (e1 ++ e2)
  = spec_results snapname d e1 ++ spec_results snapname d e2.
Proof. unfold spec_results. now rewrite filter_app, map_app. Qed.

Lemma examined_source (clock : nat -> Q) (snapname : option string) l :
  forall k, map fst (examined clock k snapname l) = l.
Proof.
  induction l as [|s rest IH]; intros k; simpl; [reflexivity|]. now rewrite IH.
Qed.

Lemma examined_app (clock : nat -> Q) (snapname : option string) (l1 l2 : list snapshot) :
  forall k,
  examined clock k snapname (l1 ++ l2)
  = examined clock k snapname l1
    ++ examined clock (k + length (filter (reads_clock snapname) l1)) snapname l2.
Proof.
  induction l1 as [|s rest IH]; intros k; simpl.
  - now rewrite Nat.add_0_r.
  - rewrite IH. destruct (reads_clock snapname s); simpl; [|reflexivity].
    now rewrite Nat.add_succ_r.
Qed.

(** When the clock stands still the selection is a plain filter of the list. *)
Lemma spec_results_frozen (clock : nat -> Q) (snapname : option string) d t l :
  (forall k, clock k == t)%Q ->
  forall k,
  spec_results snapname d (examined clock k snapname l)
  = map name (filter (spec_passes snapname d t) l).
Proof.
  intros Hfrozen. unfold spec_results.
  induction l as [|s rest IH]; intros k; simpl; [reflexivity|].
  assert (E : spec_passes snapname d (clock k) s = spec_passes snapname d t s).
  { unfold spec_passes. now rewrite (Hfrozen k). }
  rewrite E. destruct (spec_passes snapname d t s); simpl; now rewrite IH.
Qed.

(** ** The claims about the selection *)

(** C1. Whatever list is fetched and whatever the values of [snapname] and
    [older_than], a run that exits with a list of results never has the name
    ["current"] in it. *)
Theorem current_never_in_results w m (kw : exit_kwargs) (r : list string) :
  fst (run w m) = ExitJson kw ->
  results kw = Some r ->
  ~ In "current" r.
Proof.
  intros E Hr Hin.
  destruct (run_results_inv w m kw r E Hr) as (l & _ & ->).
  apply in_spec_results in Hin. destruct Hin as (e & _ & En & Hp).
  unfold spec_passes in Hp. rewrite !andb_true_iff, negb_true_iff in Hp.
  destruct Hp as [[Hc _] _]. rewrite En in Hc. discriminate.
Qed.

(** C4. When [snapname] is given, every name in the results starts with it;
    a name that does not start with it is in no list of results, however old
    its snapshot is. *)
Theorem results_start_with_snapname w m (q : string) (kw : exit_kwargs)
    (r : list string) :
  snapname m = Some q ->
  fst (run w m) = ExitJson kw ->
  results kw = Some r ->
  (forall n, In n r -> String.prefix q n = true /\ exists rest, n = (q ++ rest)%string)
  /\ (forall n, String.prefix q n = false -> ~ In n r).
Proof.
  intros Hq E Hr.
  destruct (run_results_inv w m kw r E Hr) as (l & _ & ->).
  assert (A : forall n,
             In n (spec_results (snapname m) (older_than m)
                     (examined (time_time w) 0 (snapname m) l)) ->
             String.prefix q n = true).
  { intros n Hin. apply in_spec_results in Hin. destruct Hin as (e & _ & En & Hp).
    unfold spec_passes in Hp. rewrite Hq, !andb_true_iff in Hp.
    destruct Hp as [[_ Hp] _]. now rewrite <- En. }
  split.
  - intros n Hin. split; [now apply A|]. apply prefix_iff_append. now apply A.
  - intros n Hn Hin. apply A in Hin. congruence.
Qed.

(** C5. On every exit of a run through [exit_json], [changed] is false; the
    exit is one of three: the identifier could not be had, the list could
    not be fetched, or the results are delivered. *)
Theorem changed_is_always_false w m (kw : exit_kwargs) :
  fst (run w m) = ExitJson kw ->
  changed kw = false
  /\ (kw = mkExit false (Some "Vmid could not be fetched") None
      \/ kw = mkExit false (Some "Snapshots could not be fetched") None
      \/ exists r, kw = mkExit false None (Some r)).
Proof.
  intros E.
  destruct (HAS_PROXMOX_SNAP w) eqn:H.
  - rewrite (run_fst w m H) in E.
    destruct (get_proxmox_snapshotlist w m (hostname m) (vmid m) initial)
      as [l st|o st] eqn:G.
    + injection E as <-. split; [reflexivity|]. right; right. eauto.
    + apply fetch_halts in G. subst o. unfold soft_outcome in G.
      destruct G as [[e G] | [G | G]]; try discriminate;
        injection G as ->; split; auto.
  - rewrite (run_missing_lib w m H) in E. discriminate.
Qed.


(** C8. Scenario A: with the clock at [t], the raw list of the scenario,
    [older_than = 2] and no [snapname], the loop returns exactly
    [["daily_1"]], and so does the run. *)
Theorem scenario_A_lists_daily_1 w m p (v : ident) (vm : VM) t :
  HAS_PROXMOX_SNAP w = true ->
  (forall k, time_time w k == t)%Q ->
  new_ProxmoxSnapAnsible w m = Returns p ->
  resolves p m v ->
  get_vm p v = Returns vm ->
  snapshot_get p vm v = Returns (Some (Scenario.raw t)) ->
  snapname m = None ->
  older_than m = 2%Z ->
  (forall st, exists st', for_loop w None 2 (Scenario.raw t) [] st = Next ["daily_1"] st')
  /\ fst (run w m) = ExitJson (mkExit false None (Some ["daily_1"])).
Proof.
  intros H Hfrozen Hnew Hres Hvm Hget Hsn Hd.
  assert (R : forall k, spec_results None 2 (examined (time_time w) k None (Scenario.raw t))
                        = ["daily_1"]).
  { intros k. rewrite (spec_results_frozen _ None 2%Z t _ Hfrozen k).
    unfold Scenario.raw, spec_passes. simpl.
    assert (E1 : ((t - (t - 3 * 86400)) / 86400 == 3)%Q) by field.
    assert (E2 : ((t - (t - 1 * 86400)) / 86400 == 1)%Q) by field.
    rewrite E1, E2. reflexivity. }
  split.
  - intros st. destruct (for_loop_spec w None 2%Z (Scenario.raw t) [] st) as (st' & E & _).
    exists st'. rewrite E, R. reflexivity.
  - rewrite (run_lists w m p v vm (Scenario.raw t) H Hnew Hres Hvm Hget); [|discriminate].
    now rewrite Hsn, Hd, R.
Qed.

(** ** The two soft outcomes *)

(** C7. When the fetch answers nothing, an absent list or an empty one, the
    run stops there, before the loop reads any clock, and exits without
    failure with the message ["Snapshots could not be fetched"] and no list:
    the outcome of a run with no identifier at all, but for the message. *)
Theorem empty_fetch_is_soft w m p (v : ident) (vm : VM) (r : option (list snapshot)) :
  HAS_PROXMOX_SNAP w = true ->
  new_ProxmoxSnapAnsible w m = Returns p ->
  resolves p m v ->
  get_vm p v = Returns vm ->
  snapshot_get p vm v = Returns r ->
  truthy_list r = false ->
  soft_outcome (fst (run w m)) "Snapshots could not be fetched"
  /\ trace (snd (run w m))
     = [ev_new m] ++ resolution_events m ++ [ev_get_vm v; ev_snapshot_get vm v]
  /\ ~ In ev_time (trace (snd (run w m)))
  /\ "Snapshots could not be fetched" <> "Vmid could not be fetched"
  /\ (forall m0 p0,
        new_ProxmoxSnapAnsible w m0 = Returns p0 ->
        truthy_opt (vmid m0) = false ->
        truthy_opt (hostname m0) = false ->
        soft_outcome (fst (run w m0)) "Vmid could not be fetched").
Proof.
  intros H Hnew Hres Hvm Hget Hr.
  pose proof (fetch_empty w m p v vm r initial Hnew Hres Hvm Hget Hr) as G.
  assert (T : trace (snd (run w m))
              = [ev_new m] ++ resolution_events m ++ [ev_get_vm v; ev_snapshot_get vm v]).
  { rewrite (run_trace w m H), G. reflexivity. }
  split; [|split; [|split; [|split]]].
  - unfold soft_outcome. now rewrite (run_fst w m H), G.
  - exact T.
  - rewrite T. unfold resolution_events.
    destruct (negb (truthy_opt (vmid m)) && truthy_opt (hostname m)); simpl;
      intuition discriminate.
  - discriminate.
  - intros m0 p0 Hnew0 Hv0 Hh0. unfold soft_outcome.
    now rewrite (run_fst w m0 H), (fetch_unidentified w m0 p0 initial Hnew0 Hv0 Hh0).
Qed.

(** C3, as the module has it. With neither [vmid] nor [hostname] the run
    stops as soon as the helper is built and exits without failure, with the
    message ["Vmid could not be fetched"] and no list. With a [hostname]
    and no [vmid], what [get_vmid] answers is taken as the identifier
    without a check: [get_vm] is called with it, and the run does not end
    on that message. *)
Theorem unidentified_is_soft_resolution_unchecked w m p :
  HAS_PROXMOX_SNAP w = true ->
  new_ProxmoxSnapAnsible w m = Returns p ->
  truthy_opt (vmid m) = false ->
  (truthy_opt (hostname m) = false ->
   run w m = (ExitJson (mkExit false (Some "Vmid could not be fetched") None),
              mkState 0 [ev_new m]))
  /\ (truthy_opt (hostname m) = true ->
      forall v : ident,
        get_vmid p (hostname m) = Returns v ->
        (exists rest,
            trace (snd (run w m))
            = [ev_new m; ev_get_vmid (hostname m); ev_get_vm v] ++ rest)
        /\ ~ soft_outcome (fst (run w m)) "Vmid could not be fetched").
Proof.
  intros H Hnew Hv. split.
  - intros Hh. unfold run, main, bind. rewrite H. simpl.
    now rewrite (fetch_unidentified w m p initial Hnew Hv Hh).
  - intros Hh v Hid.
    pose proof (fetch_by_hostname w m p v initial Hnew Hv Hh Hid) as G.
    split.
    + rewrite (run_trace w m H), G.
      destruct (get_vm p v) as [vm|e]; [|now exists []].
      destruct (snapshot_get p vm v) as [[[|s r]|]|e]; simpl; eauto.
    + unfold soft_outcome. rewrite (run_fst w m H), G.
      destruct (get_vm p v) as [vm|e]; [|discriminate].
      destruct (snapshot_get p vm v) as [[[|s r]|]|e]; simpl; discriminate.
Qed.

(** ** Parameters that do not count *)


(** C10. With a [vmid], the [hostname] does not count: if the helper
    answers the calls made for that [vmid] the same, a run with any other
    [hostname] ends the same, and neither run calls [get_vmid]. *)
Theorem hostname_ignored_when_vmid_given w m (h : option string) :
  truthy_opt (vmid m) = true ->
  same_answers (ident_of_param (vmid m))
               (new_ProxmoxSnapAnsible w (with_hostname h m))
               (new_ProxmoxSnapAnsible w m) ->
  fst (run w (with_hostname h m)) = fst (run w m)
  /\ (forall h', ~ In (ev_get_vmid h') (trace (snd (run w (with_hostname h m)))))
  /\ (forall h', ~ In (ev_get_vmid h') (trace (snd (run w m)))).
Proof.
  intros Hv Hsame.
  destruct (HAS_PROXMOX_SNAP w) eqn:H.
  2:{ rewrite !run_missing_lib by exact H. simpl. auto. }
  assert (Quiet : forall m', truthy_opt (vmid m') = true ->
            forall h', ~ In (ev_get_vmid h') (trace (snd (run w m')))).
  { intros m' Hv' h'. rewrite (run_trace w m' H).
    unfold get_proxmox_snapshotlist, bind, invoke, exit_json, ret, log.
    rewrite Hv'. simpl.
    destruct (new_ProxmoxSnapAnsible w m') as [p|e]; simpl; [|intuition discriminate].
    destruct (get_vm p (ident_of_param (vmid m'))) as [vm|e]; simpl;
      [|intuition discriminate].
    destruct (snapshot_get p vm (ident_of_param (vmid m'))) as [[[|s r]|]|e]; simpl;
      try (intuition discriminate).
    intros [Hin|[Hin|[Hin|Hin]]]; try discriminate.
    apply repeat_spec in Hin. discriminate. }
  split; [|split; apply Quiet; exact Hv].
  rewrite !run_fst by exact H.
  unfold get_proxmox_snapshotlist, bind, invoke, exit_json, ret.
  simpl. rewrite Hv. simpl.
  unfold same_answers in Hsame.
  destruct (new_ProxmoxSnapAnsible w (with_hostname h m)) as [p1|e1];
    destruct (new_ProxmoxSnapAnsible w m) as [p2|e2]; try contradiction.
  - destruct Hsame as [Hvm Hget]. rewrite Hvm.
    destruct (get_vm p2 (ident_of_param (vmid m))) as [vm|e]; [|reflexivity].
    rewrite Hget.
    destruct (snapshot_get p2 vm (ident_of_param (vmid m))) as [[[|s r]|]|e]; reflexivity.
  - now subst.
Qed.

End Properties.

(** * Beyond the claims: how a run ends, what it calls, what it lists *)

Section Beyond.

Context {AuthArgs VM : Type}.
Local Open Scope list_scope.
Implicit Types (w : world AuthArgs VM) (m : AnsibleModule AuthArgs)
  (p : ProxmoxSnapAnsible VM) (st : state AuthArgs VM) (s : snapshot)
  (l : list snapshot) (t : Q) (d : Z) (e : string).

(** ** The ways through the fetch *)

(** The identifier of a run is determined. *)
Lemma resolves_unique p m (v v' : ident) : resolves p m v -> resolves p m v' -> v = v'.
Proof.
  intros [Hv | v1 Hv Hh Hr] [Hv' | v2 Hv' Hh' Hr']; try congruence.
Qed.

(** Closes a goal [fetch_path w m st r] with the way [H], whose state
    differs from that of [r] by the bracketing of the trace only. *)
Ltac by_way H :=
  let T := type of H in
  match T with
  | fetch_path _ _ _ ?r =>
      match goal with
      | |- fetch_path _ _ _ ?r' =>
          replace r' with r;
          [ exact H
          | unfold after, log, resolution_events;
            repeat match goal with
              | E : truthy_opt _ = _ |- _ => rewrite E
              end;
            simpl; rewrite <- ?app_assoc; reflexivity ]
      end
  end.

(** Every run of the fetch takes one of the seven ways. *)
Lemma fetch_path_holds w m st :
  fetch_path w m st (get_proxmox_snapshotlist w m (hostname m) (vmid m) st).
Proof.
  unfold get_proxmox_snapshotlist, bind, invoke, ret, exit_json.
  destruct (new_ProxmoxSnapAnsible w m) as [p|e] eqn:Hnew;
    [|by_way (path_new_raises w m st e Hnew)].
  assert (Tail : forall v, resolves p m v ->
            fetch_path w m st
              match get_vm p v with
              | Returns vm =>
                  match snapshot_get p vm v with
                  | Returns (Some (s :: l)) =>
                      Next (s :: l)
                        (after st ([ev_new m] ++ resolution_events m
                                     ++ [ev_get_vm v; ev_snapshot_get vm v]))
                  | Returns _ =>
                      Halt (ExitJson (mkExit false (Some "Snapshots could not be fetched") None))
                        (after st ([ev_new m] ++ resolution_events m
                                     ++ [ev_get_vm v; ev_snapshot_get vm v]))
                  | Raises e =>
                      Halt (Uncaught e)
                        (after st ([ev_new m] ++ resolution_events m
                                     ++ [ev_get_vm v; ev_snapshot_get vm v]))
                  end
              | Raises e =>
                  Halt (Uncaught e)
                    (after st ([ev_new m] ++ resolution_events m ++ [ev_get_vm v]))
              end).
  { intros v R.
    destruct (get_vm p v) as [vm|e] eqn:Hvm;
      [|exact (path_get_vm_raises w m st p v e Hnew R Hvm)].
    destruct (snapshot_get p vm v) as [[[|s l]|]|e] eqn:Hget.
    - exact (path_nothing w m st p v vm (Some []) Hnew R Hvm Hget eq_refl).
    - apply (path_list w m st p v vm (s :: l) Hnew R Hvm Hget). discriminate.
    - exact (path_nothing w m st p v vm None Hnew R Hvm Hget eq_refl).
    - exact (path_snapshot_get_raises w m st p v vm e Hnew R Hvm Hget). }
  destruct (truthy_opt (vmid m)) eqn:Hv; simpl.
  - pose proof (Tail _ (resolves_vmid p m Hv)) as T.
    destruct (get_vm p (ident_of_param (vmid m))) as [vm|e]; [|by_way T].
    destruct (snapshot_get p vm (ident_of_param (vmid m))) as [[[|s l]|]|e]; by_way T.
  - destruct (truthy_opt (hostname m)) eqn:Hh; simpl;
      [|by_way (path_unidentified w m st p Hnew Hv Hh)].
    destruct (get_vmid p (hostname m)) as [v|e] eqn:Hid;
      [|by_way (path_get_vmid_raises w m st p e Hnew Hv Hh Hid)].
    pose proof (Tail v (resolves_hostname p m v Hv Hh Hid)) as T.
    destruct (get_vm p v) as [vm|e]; [|by_way T].
    destruct (snapshot_get p vm v) as [[[|s l]|]|e]; by_way T.
Qed.

(** Brings two descriptions of the way of one run together: the same
    helper, the same identifier. *)
Ltac same_way :=
  repeat match goal with
    | H1 : new_ProxmoxSnapAnsible ?w ?m = Returns ?p,
      H2 : new_ProxmoxSnapAnsible ?w ?m = Returns ?q |- _ =>
        assert (q = p) by congruence; subst q; clear H2
    | H1 : resolves ?p ?m ?v, H2 : resolves ?p ?m ?u |- _ =>
        pose proof (resolves_unique p m u v H2 H1); subst u; clear H2
    | H1 : get_vm ?p ?v = Returns ?a, H2 : get_vm ?p ?v = Returns ?b |- _ =>
        assert (b = a) by congruence; subst b; clear H2
    end.

(** A resolved identifier comes from a [vmid] or from a [hostname]. *)
Lemma resolves_by_hostname p m (v : ident) :
  resolves p m v ->
  truthy_opt (vmid m) = false ->
  truthy_opt (hostname m) = true /\ get_vmid p (hostname m) = Returns v.
Proof.
  intros [Hv | v' Hv Hh Hr] Hf; [congruence | now split].
Qed.

(** ** The whole run, again *)

(** A run with the import ends where the fetch halts, or goes through the
    loop, which adds its readings of the clock to the calls of the fetch. *)
Lemma run_after_fetch w m :
  HAS_PROXMOX_SNAP w = true ->
  match get_proxmox_snapshotlist w m (hostname m) (vmid m) initial with
  | Halt o st' => run w m = (o, st')
  | Next l st' =>
      exists st'',
        run w m
        = (ExitJson (mkExit false None
             (Some (spec_results (snapname m) (older_than m)
                      (examined (time_time w) (ticks st') (snapname m) l)))), st'')
        /\ ticks st'' = (ticks st' + length (filter (reads_clock (snapname m)) l))%nat
        /\ trace st''
           = trace st' ++ repeat ev_time (length (filter (reads_clock (snapname m)) l))
  end.
Proof.
  intros H. unfold run, main, bind. rewrite H. simpl.
  destruct (get_proxmox_snapshotlist w m (hostname m) (vmid m) initial) as [l st'|o st'];
    [|reflexivity].
  destruct (for_loop_spec w (snapname m) (older_than m) l [] st') as (st'' & E & Ht & Hl).
  exists st''. rewrite E. simpl. auto.
Qed.

(** The way of the fetch of a run, with what the run makes of it. *)
Ltac ways_as_they_are w m H :=
  let P := fresh "P" in
  let R := fresh "R" in
  let r := fresh "r" in
  let Er := fresh "Er" in
  pose proof (fetch_path_holds w m initial) as P;
  pose proof (run_after_fetch w m H) as R;
  remember (get_proxmox_snapshotlist w m (hostname m) (vmid m) initial) as r eqn:Er;
  clear Er; destruct P; [..| destruct R as (? & R & ? & ?)]; try rewrite R in *.

Ltac ways w m H := ways_as_they_are w m H; simpl in *.

(** ** How a run ends *)

(** X2. The module catches no failure of the helper: when a call to
    the helper that the run makes fails with [e] (the constructor,
    [get_vmid] when it is needed, [get_vm], or the fetch of the list), the
    run ends there on that failure, with no results and before any reading
    of the clock. *)
Theorem helper_failure_is_not_caught w m e :
  HAS_PROXMOX_SNAP w = true ->
  raises_on_path w m e ->
  fst (run w m) = Uncaught e
  /\ ticks (snd (run w m)) = 0%nat
  /\ ~ In ev_time (trace (snd (run w m))).
Proof.
  intros H Hr.
  assert (Res : ~ In ev_time (resolution_events (AuthArgs:=AuthArgs) (VM:=VM) m)).
  { unfold resolution_events.
    destruct (negb (truthy_opt (vmid m)) && truthy_opt (hostname m)); simpl;
      intuition discriminate. }
  ways w m H; destruct Hr as [Hn | q Hn Hv Hh Hid | q u Hn Hu Hvm | q u a Hn Hu Hvm Hget];
    same_way;
    try congruence;
    try (destruct (resolves_by_hostname _ _ _ ltac:(eassumption) ltac:(eassumption));
         congruence);
    (split; [congruence|]; split; [reflexivity|]);
    rewrite ?in_app_iff; simpl; intuition discriminate.
Qed.

(** X3. A run exits with the message ["Vmid could not be fetched"]
    exactly when the helper could be built and neither a [vmid] nor a
    [hostname] was given. *)
Theorem vmid_message_iff_no_identifier w m :
  soft_outcome (fst (run w m)) "Vmid could not be fetched"
  <-> HAS_PROXMOX_SNAP w = true
      /\ (exists p, new_ProxmoxSnapAnsible w m = Returns p)
      /\ truthy_opt (vmid m) = false
      /\ truthy_opt (hostname m) = false.
Proof.
  unfold soft_outcome.
  destruct (HAS_PROXMOX_SNAP w) eqn:H.
  2:{ rewrite (run_missing_lib w m H). simpl.
      split; [discriminate | intros [? _]; discriminate]. }
  split.
  - intros E. ways w m H; try discriminate. eauto 6.
  - intros (_ & [q Hn] & Hv & Hh).
    ways w m H; same_way; try congruence;
      destruct (resolves_by_hostname _ _ _ ltac:(eassumption) Hv); congruence.
Qed.

(** X4. A run exits with the message ["Snapshots could not be fetched"]
    exactly when the instance was found and the helper answered no list, or
    an empty one. *)
Theorem snapshots_message_iff_nothing_fetched w m :
  soft_outcome (fst (run w m)) "Snapshots could not be fetched"
  <-> HAS_PROXMOX_SNAP w = true
      /\ exists p (v : ident) (vm : VM) (r : option (list snapshot)),
           new_ProxmoxSnapAnsible w m = Returns p
           /\ resolves p m v
           /\ get_vm p v = Returns vm
           /\ snapshot_get p vm v = Returns r
           /\ truthy_list r = false.
Proof.
  unfold soft_outcome.
  destruct (HAS_PROXMOX_SNAP w) eqn:H.
  2:{ rewrite (run_missing_lib w m H). simpl.
      split; [discriminate | intros [? _]; discriminate]. }
  split.
  - intros E. ways w m H; try discriminate. split; [reflexivity|].
    repeat eexists; eassumption.
  - intros (_ & q & u & a & r' & Hn & Hu & Hvm & Hget & Hr).
    ways w m H; same_way; try congruence;
      try (destruct (resolves_by_hostname _ _ _ ltac:(eassumption) ltac:(eassumption));
           congruence).
    assert (Some l = r') by congruence. subst r'.
    destruct l; [contradiction | discriminate].
Qed.

(** ** Subsequences *)

Lemma subseq_refl {A : Type} (l : list A) : subseq l l.
Proof. induction l; [apply subseq_nil | now apply subseq_keep]. Qed.

Lemma subseq_In {A : Type} (l1 l2 : list A) (x : A) :
  subseq l1 l2 -> In x l1 -> In x l2.
Proof.
  induction 1 as [|y l1 l2 _ IH|y l1 l2 _ IH]; simpl; intuition.
Qed.

Lemma subseq_length {A : Type} (l1 l2 : list A) :
  subseq l1 l2 -> (length l1 <= length l2)%nat.
Proof. induction 1; simpl; lia. Qed.

Lemma subseq_NoDup {A : Type} (l1 l2 : list A) :
  subseq l1 l2 -> NoDup l2 -> NoDup l1.
Proof.
  induction 1 as [|y l1 l2 Hs IH|y l1 l2 Hs IH]; intros Hn; trivial.
  - inversion Hn; auto.
  - inversion Hn as [|? ? Hy Hn']; subst. constructor; auto.
    intros Hin. apply Hy. eapply subseq_In; eassumption.
Qed.

(** Filtering by a stronger test selects a subsequence. *)
Lemma subseq_filter_map {A B : Type} (h : A -> B) (f g : A -> bool) (l : list A) :
  (forall x, In x l -> f x = true -> g x = true) ->
  subseq (map h (filter f l)) (map h (filter g l)).
Proof.
  induction l as [|x l IH]; intros Hfg; simpl; [apply subseq_nil|].
  assert (IH' : subseq (map h (filter f l)) (map h (filter g l)))
    by (apply IH; intros y Hy; apply Hfg; now right).
  destruct (f x) eqn:Hf.
  - rewrite (Hfg x (or_introl eq_refl) Hf). simpl. now apply subseq_keep.
  - destruct (g x); simpl; [now apply subseq_skip | exact IH'].
Qed.

Lemma subseq_filter {A B : Type} (h : A -> B) (f : A -> bool) (l : list A) :
  subseq (map h (filter f l)) (map h l).
Proof.
  induction l as [|x l IH]; simpl; [apply subseq_nil|].
  destruct (f x); simpl; [now apply subseq_keep | now apply subseq_skip].
Qed.

(** The names selected are a subsequence of the names of the list. *)
Lemma spec_results_subseq (clock : nat -> Q) (snapname : option string) d l (k : nat) :
  subseq (spec_results snapname d (examined clock k snapname l)) (map name l).
Proof.
  unfold spec_results.
  rewrite <- (examined_source clock snapname l k) at 2. rewrite map_map.
  apply subseq_filter.
Qed.

(** Decides a goal [subseq l1 l2] on explicit lists. *)
Ltac subseq_explicit :=
  repeat first [apply subseq_nil | apply subseq_keep | apply subseq_skip].

(** ** What a run lists and what it calls *)

(** X5. The names a run delivers come from the list the helper answered
    for the instance: they are a subsequence of the names of that list, so
    that names that are unique there are unique in the results. *)
Theorem results_come_from_the_fetch w m (r : list string) :
  delivers (fst (run w m)) r ->
  exists p (v : ident) (vm : VM) l,
    new_ProxmoxSnapAnsible w m = Returns p
    /\ resolves p m v
    /\ get_vm p v = Returns vm
    /\ snapshot_get p vm v = Returns (Some l)
    /\ subseq r (map name l)
    /\ (NoDup (map name l) -> NoDup r).
Proof.
  unfold delivers. intros E.
  destruct (HAS_PROXMOX_SNAP w) eqn:H.
  2:{ rewrite (run_missing_lib w m H) in E. discriminate. }
  ways w m H; try discriminate.
  injection E as <-.
  pose proof (spec_results_subseq (time_time w) (snapname m) (older_than m) l 0) as S.
  do 4 eexists. do 4 (split; [eassumption|]).
  split; [exact S | now apply subseq_NoDup].
Qed.

(** X6. In every run the helper is called in the order of the text, each
    method at most once, and all of it before the first reading of the
    clock: the trace is some of [new], [get_vmid], [get_vm], [snapshot.get]
    in that order, followed by the readings. *)
Theorem helper_calls_in_order_then_clock w m :
  exists calls,
    trace (snd (run w m)) = calls ++ repeat ev_time (ticks (snd (run w m)))
    /\ subseq (map stage calls) [0; 1; 2; 3]%nat.
Proof.
  destruct (HAS_PROXMOX_SNAP w) eqn:H.
  2:{ rewrite (run_missing_lib w m H). exists []. split; [reflexivity|]. subseq_explicit. }
  ways_as_they_are w m H;
    match goal with
    | |- context [after initial ?calls] => exists calls
    end;
    (split;
     [ simpl snd;
       repeat match goal with E : _ = _ |- _ => rewrite E end;
       simpl; rewrite ?app_nil_r; reflexivity
     | unfold resolution_events;
       try destruct (negb (truthy_opt (vmid m)) && truthy_opt (hostname m));
       simpl; subseq_explicit ]).
Qed.

(** X7. [get_vmid] is called exactly when the helper could be built, no
    [vmid] was given and a [hostname] was; it is called with that
    [hostname]. *)
Theorem get_vmid_called_iff w m (h : option string) :
  In (ev_get_vmid h) (trace (snd (run w m)))
  <-> HAS_PROXMOX_SNAP w = true
      /\ (exists p, new_ProxmoxSnapAnsible w m = Returns p)
      /\ truthy_opt (vmid m) = false
      /\ truthy_opt (hostname m) = true
      /\ h = hostname m.
Proof.
  destruct (HAS_PROXMOX_SNAP w) eqn:H.
  2:{ rewrite (run_missing_lib w m H). simpl.
      split; [contradiction | intros [? _]; discriminate]. }
  assert (Res : In (ev_get_vmid h) (resolution_events (VM:=VM) m)
                <-> truthy_opt (vmid m) = false /\ truthy_opt (hostname m) = true
                    /\ h = hostname m).
  { unfold resolution_events.
    destruct (truthy_opt (vmid m)), (truthy_opt (hostname m)); simpl;
      split; try tauto; try (intros (? & ? & ?); discriminate).
    - intros [E|[]]. injection E as ->. auto.
    - intros (_ & _ & ->). auto. }
  split.
  - intros Hin. split; [reflexivity|].
    ways w m H;
      repeat match goal with E : trace _ = _ |- _ => rewrite E in Hin end;
      simpl in Hin; rewrite ?in_app_iff in Hin; simpl in Hin;
      repeat match goal with
        | Hd : _ \/ _ |- _ => destruct Hd
        | Hf : False |- _ => destruct Hf
        | Hr : In _ (repeat _ _) |- _ => apply repeat_spec in Hr
        end;
      try discriminate;
      try match goal with
        | Hr : In _ (resolution_events _) |- _ => apply Res in Hr
        end;
      try match goal with
        | Hq : ev_get_vmid _ = ev_get_vmid _ |- _ => injection Hq as <-
        end;
      intuition eauto.
  - intros (_ & [q Hq] & Hv & Hh & ->).
    ways w m H;
      repeat match goal with E : trace _ = _ |- _ => rewrite E end;
      same_way; try congruence;
      unfold resolution_events; rewrite ?Hv, ?Hh; simpl; auto.
Qed.

(** X8. The list is only fetched for an instance that [get_vm] found:
    a call [snapshot(vm, vmid).get()] in a run has for [vmid] the identifier
    of the run, for [vm] the answer of [get_vm] for it, and comes after that
    call of [get_vm]. *)
Theorem list_fetched_for_the_instance_found w m (vm : VM) (v : ident) :
  In (ev_snapshot_get vm v) (trace (snd (run w m))) ->
  exists p,
    new_ProxmoxSnapAnsible w m = Returns p
    /\ resolves p m v
    /\ get_vm p v = Returns vm
    /\ exists before rest,
         trace (snd (run w m)) = before ++ ev_get_vm v :: ev_snapshot_get vm v :: rest.
Proof.
  destruct (HAS_PROXMOX_SNAP w) eqn:H.
  2:{ rewrite (run_missing_lib w m H). simpl. contradiction. }
  assert (Res : ~ In (ev_snapshot_get vm v) (resolution_events (VM:=VM) m)).
  { unfold resolution_events.
    destruct (negb (truthy_opt (vmid m)) && truthy_opt (hostname m)); simpl;
      intuition discriminate. }
  intros Hin.
  ways w m H;
    repeat match goal with E : trace _ = _ |- _ => rewrite E in Hin |- * end;
    simpl in Hin; rewrite ?in_app_iff in Hin; simpl in Hin;
    repeat match goal with
      | Hd : _ \/ _ |- _ => destruct Hd
      | Hf : False |- _ => destruct Hf
      | Hr : In _ (repeat _ _) |- _ => apply repeat_spec in Hr
      | Hr : In _ (resolution_events _) |- _ => destruct (Res Hr)
      end;
    try discriminate;
    match goal with
    | Hq : ev_snapshot_get _ _ = ev_snapshot_get _ _ |- _ => injection Hq as <- <-
    end;
    (eexists; repeat (split; [eassumption|]));
    exists (ev_new m :: resolution_events m).
  - exists []. simpl. rewrite <- ?app_assoc. reflexivity.
  - exists []. simpl. rewrite <- ?app_assoc. reflexivity.
  - eexists. simpl. rewrite <- ?app_assoc. reflexivity.
Qed.

(** The loop lists no more names than it reads the clock. *)
Lemma spec_results_length (clock : nat -> Q) (snapname : option string) d l :
  forall k : nat,
    (length (spec_results snapname d (examined clock k snapname l))
     <= length (filter (reads_clock snapname) l))%nat.
Proof.
  unfold spec_results.
  induction l as [|s rest IH]; intros k; simpl; [lia|].
  destruct (reads_clock snapname s) eqn:Hr.
  - destruct (spec_passes snapname d (clock k) s); simpl;
      specialize (IH (S k)); lia.
  - rewrite (spec_passes_skips _ d _ _ Hr). apply IH.
Qed.

(** X9. A run that delivers results has read the clock once for each
    fetched record that is neither the live state nor rejected for its
    prefix: at most once for each record of the list, and at least once
    for each name delivered. *)
Theorem clock_read_once_per_examined_record w m p (v : ident) (vm : VM) l :
  HAS_PROXMOX_SNAP w = true ->
  new_ProxmoxSnapAnsible w m = Returns p ->
  resolves p m v ->
  get_vm p v = Returns vm ->
  snapshot_get p vm v = Returns (Some l) ->
  l <> [] ->
  ticks (snd (run w m)) = length (filter (reads_clock (snapname m)) l)
  /\ (ticks (snd (run w m)) <= length l)%nat
  /\ forall r, delivers (fst (run w m)) r ->
               (length r <= ticks (snd (run w m)))%nat.
Proof.
  intros H Hnew Hres Hvm Hget Hne.
  pose proof (run_after_fetch w m H) as R.
  rewrite (fetch_returns w m p v vm l initial Hnew Hres Hvm Hget Hne) in R.
  destruct R as (st'' & R & Ht & _). rewrite R. simpl in *.
  rewrite Ht. split; [reflexivity|]. split; [apply filter_length_le|].
  unfold delivers. intros r E. injection E as <-. apply spec_results_length.
Qed.

(** ** The parameters *)

Lemma run_fst_answer w m :
  HAS_PROXMOX_SNAP w = true ->
  fst (run w m)
  = match answer (get_proxmox_snapshotlist w m (hostname m) (vmid m) initial) with
    | inr o => o
    | inl l =>
        ExitJson (mkExit false None
          (Some (spec_results (snapname m) (older_than m)
                   (examined (time_time w) 0 (snapname m) l))))
    end.
Proof.
  intros H. rewrite (run_fst w m H).
  now destruct (get_proxmox_snapshotlist w m (hostname m) (vmid m) initial).
Qed.

(** The fetch looks at [vmid] and [hostname] only, and at the helper. *)
Lemma fetch_answer_same w m m' :
  vmid m' = vmid m ->
  hostname m' = hostname m ->
  new_ProxmoxSnapAnsible w m' = new_ProxmoxSnapAnsible w m ->
  answer (get_proxmox_snapshotlist w m' (hostname m') (vmid m') initial)
  = answer (get_proxmox_snapshotlist w m (hostname m) (vmid m) initial).
Proof.
  intros Hv Hh Hn.
  unfold get_proxmox_snapshotlist at 1. unfold bind at 1. rewrite Hv, Hh, Hn.
  unfold get_proxmox_snapshotlist, bind, invoke, exit_json, ret.
  repeat match goal with
    | |- context [match ?c with Returns _ => _ | Raises _ => _ end] =>
        destruct c as [?|?]; simpl
    | |- context [match ?c with Some _ => _ | None => _ end] =>
        destruct c as [[|? ?]|]; simpl
    | |- context [if ?b then _ else _] => destruct b; simpl
    end; reflexivity.
Qed.

(** A fetch that halts does not deliver. *)
Lemma delivers_needs_list w m (r : list string) :
  delivers (fst (run w m)) r ->
  HAS_PROXMOX_SNAP w = true
  /\ exists l,
       answer (get_proxmox_snapshotlist w m (hostname m) (vmid m) initial) = inl l
       /\ r = spec_results (snapname m) (older_than m)
                (examined (time_time w) 0 (snapname m) l).
Proof.
  unfold delivers. intros E.
  destruct (HAS_PROXMOX_SNAP w) eqn:H.
  2:{ rewrite (run_missing_lib w m H) in E. discriminate. }
  split; [reflexivity|].
  rewrite (run_fst_answer w m H) in E.
  destruct (get_proxmox_snapshotlist w m (hostname m) (vmid m) initial) as [l st|o st] eqn:G;
    simpl in E.
  - exists l. split; [reflexivity|]. now injection E as <-.
  - apply fetch_halts in G. unfold soft_outcome in G.
    destruct G as [[x G] | [G | G]]; congruence.
Qed.

Lemma truthy_blank (q : option string) :
  truthy_opt (blank_is_absent q) = truthy_opt q.
Proof. now destruct q as [[|c q]|]. Qed.

Lemma blank_truthy (q : option string) :
  truthy_opt q = true -> blank_is_absent q = q.
Proof. now destruct q as [[|c q]|]. Qed.

Lemma reads_clock_blank (q : option string) s :
  reads_clock (blank_is_absent q) s = reads_clock q s.
Proof. now destruct q as [[|c q]|]. Qed.

Lemma spec_passes_blank (q : option string) d t s :
  spec_passes (blank_is_absent q) d t s = spec_passes q d t s.
Proof.
  destruct q as [[|c q]|]; trivial.
  unfold spec_passes. simpl. now destruct (name s).
Qed.

Lemma spec_results_blank (clock : nat -> Q) (q : option string) d l :
  forall k : nat,
    spec_results (blank_is_absent q) d (examined clock k (blank_is_absent q) l)
    = spec_results q d (examined clock k q l).
Proof.
  unfold spec_results.
  induction l as [|s rest IH]; intros k; simpl; [reflexivity|].
  rewrite spec_passes_blank, reads_clock_blank.
  destruct (spec_passes q d (clock k) s); simpl; now rewrite IH.
Qed.

(** X10. An empty string counts as a parameter that is not given: taking
    the empty strings out of [vmid], [hostname] and [snapname] does not
    change how the run ends, if the helper is built the same. *)
Theorem empty_strings_count_as_absent w m :
  new_ProxmoxSnapAnsible w (without_blanks m) = new_ProxmoxSnapAnsible w m ->
  fst (run w (without_blanks m)) = fst (run w m).
Proof.
  intros Hn.
  destruct (HAS_PROXMOX_SNAP w) eqn:H; [|now rewrite !run_missing_lib].
  rewrite !run_fst_answer by exact H.
  assert (A : answer (get_proxmox_snapshotlist w (without_blanks m)
                        (hostname (without_blanks m)) (vmid (without_blanks m)) initial)
              = answer (get_proxmox_snapshotlist w m (hostname m) (vmid m) initial)).
  { unfold get_proxmox_snapshotlist at 1. unfold bind at 1. rewrite Hn.
    unfold get_proxmox_snapshotlist, bind, invoke, exit_json, ret. simpl.
    rewrite !truthy_blank.
    destruct (new_ProxmoxSnapAnsible w m) as [p|e]; [|reflexivity].
    destruct (truthy_opt (vmid m)) eqn:Hv; simpl.
    - rewrite (blank_truthy _ Hv).
      destruct (get_vm p (ident_of_param (vmid m))) as [vm|e]; [|reflexivity].
      destruct (snapshot_get p vm (ident_of_param (vmid m))) as [[[|s r]|]|e]; reflexivity.
    - destruct (truthy_opt (hostname m)) eqn:Hh; simpl; [|reflexivity].
      rewrite (blank_truthy _ Hh).
      destruct (get_vmid p (hostname m)) as [v|e]; [|reflexivity].
      destruct (get_vm p v) as [vm|e]; [|reflexivity].
      destruct (snapshot_get p vm v) as [[[|s r]|]|e]; reflexivity. }
  rewrite A.
  destruct (answer (get_proxmox_snapshotlist w m (hostname m) (vmid m) initial)) as [l|o];
    [|reflexivity].
  simpl. now rewrite spec_results_blank.
Qed.

(** X11. Raising [older_than] only removes names: if the helper is built
    the same, the run with the larger value delivers a subsequence of what
    the run with the smaller value delivers. *)
Theorem raising_older_than_only_removes w m (d' : Z) (r : list string) :
  (older_than m <= d')%Z ->
  new_ProxmoxSnapAnsible w (with_older_than d' m) = new_ProxmoxSnapAnsible w m ->
  delivers (fst (run w m)) r ->
  exists r', delivers (fst (run w (with_older_than d' m))) r' /\ subseq r' r.
Proof.
  intros Hd Hn E.
  destruct (delivers_needs_list w m r E) as (H & l & A & ->).
  unfold delivers. rewrite (run_fst_answer w _ H).
  rewrite (fetch_answer_same w m (with_older_than d' m) eq_refl eq_refl Hn), A.
  eexists. split; [reflexivity|]. simpl.
  apply subseq_filter_map. intros [s t] _. simpl.
  unfold spec_passes. rewrite !andb_true_iff, !Qgtb_true_iff.
  intros [Hname Hage]. split; [exact Hname|].
  eapply Qle_lt_trans; [|exact Hage]. rewrite <- Zle_Qle. exact Hd.
Qed.

Lemma prefix_trans (a b c : string) :
  String.prefix a b = true -> String.prefix b c = true -> String.prefix a c = true.
Proof.
  rewrite !prefix_iff_append. intros [r1 ->] [r2 ->].
  exists (r1 ++ r2)%string. clear. induction a as [|x a IH]; simpl; [reflexivity|].
  now rewrite IH.
Qed.

(** A name that starts with [q] passes the prefix test of a wider filter. *)
Lemma wider_passes (snapname : option string) (q n : string) :
  wider_than snapname q ->
  String.prefix q n = true ->
  match snapname with
  | Some q0 => String.prefix q0 n
  | None => true
  end = true.
Proof.
  destruct snapname as [q0|]; simpl; [|reflexivity]. apply prefix_trans.
Qed.

Lemma reads_clock_narrow (snapname : option string) (q : string) s :
  wider_than snapname q ->
  reads_clock (Some q) s = true ->
  reads_clock snapname s = true.
Proof.
  intros Hw. unfold reads_clock. rewrite !andb_true_iff, !negb_true_iff.
  intros [Hc Hp]. split; [exact Hc|].
  apply prefix_rejects_false in Hp. pose proof (wider_passes _ _ _ Hw Hp) as Hq.
  unfold prefix_rejects. destruct snapname as [q0|]; [|reflexivity].
  rewrite Hq. apply andb_false_r.
Qed.

Lemma spec_passes_narrow (snapname : option string) (q : string) d (t' t : Q) s :
  wider_than snapname q ->
  (t' <= t)%Q ->
  spec_passes (Some q) d t' s = true ->
  spec_passes snapname d t s = true.
Proof.
  intros Hw Ht. unfold spec_passes. rewrite !andb_true_iff, !Qgtb_true_iff.
  intros [[Hc Hp] Hage]. repeat split.
  - exact Hc.
  - exact (wider_passes _ _ _ Hw Hp).
  - eapply Qlt_le_trans; [exact Hage|].
    unfold Qdiv. apply Qmult_le_compat_r; [|discriminate].
    apply Qplus_le_compat; [exact Ht | apply Qle_refl].
Qed.

(** With a clock that does not go back, a narrower prefix selects a
    subsequence, although the records are examined at other readings. *)
Lemma narrowing_subseq (clock : nat -> Q) (snapname : option string) (q : string) d l :
  (forall i j : nat, (i <= j)%nat -> (clock i <= clock j)%Q) ->
  wider_than snapname q ->
  forall k' k : nat, (k' <= k)%nat ->
    subseq (spec_results (Some q) d (examined clock k' (Some q) l))
           (spec_results snapname d (examined clock k snapname l)).
Proof.
  intros Hmono Hw. unfold spec_results.
  induction l as [|s rest IH]; intros k' k Hk; simpl; [apply subseq_nil|].
  destruct (spec_passes (Some q) d (clock k') s) eqn:P'.
  - rewrite (spec_passes_narrow snapname q d (clock k') (clock k) s Hw (Hmono _ _ Hk) P').
    simpl. apply subseq_keep.
    destruct (reads_clock (Some q) s) eqn:R'.
    + rewrite (reads_clock_narrow _ _ _ Hw R'). apply IH. lia.
    + rewrite (spec_passes_skips _ d _ _ R') in P'. discriminate.
  - assert (Tail : subseq
              (map (fun x : snapshot * Q => name (fst x))
                 (filter (fun x : snapshot * Q => spec_passes (Some q) d (snd x) (fst x))
                    (examined clock (if reads_clock (Some q) s then S k' else k')
                       (Some q) rest)))
              (map (fun x : snapshot * Q => name (fst x))
                 (filter (fun x : snapshot * Q => spec_passes snapname d (snd x) (fst x))
                    (examined clock (if reads_clock snapname s then S k else k)
                       snapname rest)))).
    { apply IH. destruct (reads_clock (Some q) s) eqn:R'.
      - rewrite (reads_clock_narrow _ _ _ Hw R'). lia.
      - destruct (reads_clock snapname s); lia. }
    destruct (spec_passes snapname d (clock k) s); simpl;
      [now apply subseq_skip | exact Tail].
Qed.

(** X12. Narrowing [snapname] only removes names, when the clock does not
    go back: if the prefix asked for so far is a prefix of [q] and the
    helper is built the same, the run with [snapname = q] delivers a
    subsequence of what the run delivers. *)
Theorem narrowing_snapname_only_removes w m (q : string) (r : list string) :
  (forall i j : nat, (i <= j)%nat -> (time_time w i <= time_time w j)%Q) ->
  wider_than (snapname m) q ->
  new_ProxmoxSnapAnsible w (with_snapname (Some q) m) = new_ProxmoxSnapAnsible w m ->
  delivers (fst (run w m)) r ->
  exists r', delivers (fst (run w (with_snapname (Some q) m))) r' /\ subseq r' r.
Proof.
  intros Hmono Hw Hn E.
  destruct (delivers_needs_list w m r E) as (H & l & A & ->).
  unfold delivers. rewrite (run_fst_answer w _ H).
  rewrite (fetch_answer_same w m (with_snapname (Some q) m) eq_refl eq_refl Hn), A.
  eexists. split; [reflexivity|]. simpl.
  now apply narrowing_subseq.
Qed.

(** ** The loop *)

(** X13. The loop works through a list piece by piece: over [l1 ++ l2]
    it does what it does over [l1], and goes on over [l2] with the names
    gathered and from the state reached. *)
Theorem loop_over_append w (snapname : option string) d (l1 l2 : list snapshot) :
  forall (acc : list string) st,
    for_loop w snapname d (l1 ++ l2) acc st
    = bind (for_loop w snapname d l1 acc) (for_loop w snapname d l2) st.
Proof.
  unfold bind.
  induction l1 as [|s rest IH]; intros acc st; simpl; [reflexivity|].
  destruct (name s =? "current")%string; [apply IH|].
  destruct (prefix_rejects snapname s); [apply IH|].
  unfold bind, read_clock.
  destruct (Qgtb (age_days (time_time w (ticks st)) s) (inject_Z d)); apply IH.
Qed.

(** ** Entries with missing keys *)

(** One turn of the loop on an entry that has a name. *)
Lemma for_loop_entries_step w (snapname : option string) d (n : string)
    (time : option Q) (rest : list entry) (acc : list string) st :
  for_loop_entries w snapname d (mkEntry (Some n) time :: rest) acc st
  = if (n =? "current")%string then for_loop_entries w snapname d rest acc st
    else if name_rejected snapname n then for_loop_entries w snapname d rest acc st
    else
      let st' := mkState (S (ticks st)) (trace st ++ [ev_time]) in
      match time with
      | None => Halt (KeyError "snaptime") st'
      | Some t0 =>
          if Qgtb ((time_time w (ticks st) - t0) / 60 / 60 / 24) (inject_Z d)
          then for_loop_entries w snapname d rest (acc ++ [n]) st'
          else for_loop_entries w snapname d rest acc st'
      end.
Proof.
  simpl. unfold bind, getitem, ret, read_clock. simpl.
  destruct (n =? "current")%string; [reflexivity|].
  destruct snapname as [[|c q]|]; simpl.
  - destruct time as [t0|]; [|reflexivity].
    now destruct (Qgtb ((time_time w (ticks st) - t0) / 60 / 60 / 24) (inject_Z d)).
  - destruct (negb (String.prefix (String c q) n)); [reflexivity|].
    destruct time as [t0|]; [|reflexivity].
    now destruct (Qgtb ((time_time w (ticks st) - t0) / 60 / 60 / 24) (inject_Z d)).
  - destruct time as [t0|]; [|reflexivity].
    now destruct (Qgtb ((time_time w (ticks st) - t0) / 60 / 60 / 24) (inject_Z d)).
Qed.

(** One turn of the loop on records, in the same form. *)
Lemma for_loop_step w (snapname : option string) d s (rest : list snapshot)
    (acc : list string) st :
  for_loop w snapname d (s :: rest) acc st
  = if (name s =? "current")%string then for_loop w snapname d rest acc st
    else if name_rejected snapname (name s) then for_loop w snapname d rest acc st
    else
      let st' := mkState (S (ticks st)) (trace st ++ [ev_time]) in
      if Qgtb ((time_time w (ticks st) - snaptime s) / 60 / 60 / 24) (inject_Z d)
      then for_loop w snapname d rest (acc ++ [name s]) st'
      else for_loop w snapname d rest acc st'.
Proof.
  simpl. change (prefix_rejects snapname s) with (name_rejected snapname (name s)).
  destruct (name s =? "current")%string; [reflexivity|].
  destruct (name_rejected snapname (name s)); [reflexivity|].
  unfold bind, read_clock, age_days. simpl.
  now destruct (Qgtb ((time_time w (ticks st) - snaptime s) / 60 / 60 / 24) (inject_Z d)).
Qed.

(** X14. On entries that have both keys the loop on entries is the loop
    on records: same names, same readings of the clock, same state. *)
Theorem loop_on_complete_entries w (snapname : option string) d l :
  forall (acc : list string) st,
    for_loop_entries w snapname d (map entry_of l) acc st
    = for_loop w snapname d l acc st.
Proof.
  induction l as [|s rest IH]; intros acc st; [reflexivity|].
  simpl map. unfold entry_of at 1. rewrite for_loop_entries_step, for_loop_step.
  destruct (name s =? "current")%string; [apply IH|].
  destruct (name_rejected snapname (name s)); [apply IH|].
  simpl.
  destruct (Qgtb ((time_time w (ticks st) - snaptime s) / 60 / 60 / 24) (inject_Z d));
    apply IH.
Qed.

(** X15. The loop on entries comes to its end exactly when every entry
    has a name, and has a time unless it is skipped for its name (the live
    state, or a name without the prefix); otherwise it stops on the
    [KeyError] of ["name"] or of ["snaptime"]. *)
Theorem loop_on_entries_completes_iff w (snapname : option string) d (l : list entry) :
  forall (acc : list string) st,
    ((exists r st', for_loop_entries w snapname d l acc st = Next r st')
     <-> forallb (entry_ok snapname) l = true)
    /\ (forall (o : outcome) st',
          for_loop_entries w snapname d l acc st = Halt o st' ->
          o = KeyError "name" \/ o = KeyError "snaptime").
Proof.
  induction l as [|[[n|] time] rest IH]; intros acc st.
  - simpl. unfold ret. split; [split; eauto | discriminate].
  - rewrite for_loop_entries_step.
    change (forallb (entry_ok snapname) (mkEntry (Some n) time :: rest))
      with (((n =? "current")%string || name_rejected snapname n
             || match time with Some _ => true | None => false end)
            && forallb (entry_ok snapname) rest).
    destruct (n =? "current")%string; simpl orb; simpl andb; [apply IH|].
    destruct (name_rejected snapname n); simpl orb; simpl andb; [apply IH|].
    destruct time as [t0|]; simpl.
    + destruct (Qgtb ((time_time w (ticks st) - t0) / 60 / 60 / 24) (inject_Z d));
        apply IH.
    + split.
      * split; [intros (r & st' & E); discriminate | discriminate].
      * intros o st' E. injection E as <- _. now right.
  - simpl. unfold bind, getitem. split.
    + split; [intros (r & st' & E); discriminate | discriminate].
    + intros o st' E. injection E as <- _. now left.
Qed.

(** X16. When every entry can be processed, the times that are missing
    are never looked at: the loop on entries is the loop on the records
    of the entries, whatever is put in place of a missing time. *)
Theorem missing_times_are_not_read w (snapname : option string) d (l : list entry)
    (filler : Q) :
  forallb (entry_ok snapname) l = true ->
  forall (acc : list string) st,
    for_loop_entries w snapname d l acc st
    = for_loop w snapname d (map (record_of filler) l) acc st.
Proof.
  induction l as [|[[n|] time] rest IH]; intros Hok acc st; [reflexivity| |discriminate].
  change (forallb (entry_ok snapname) (mkEntry (Some n) time :: rest))
    with (((n =? "current")%string || name_rejected snapname n
           || match time with Some _ => true | None => false end)
          && forallb (entry_ok snapname) rest) in Hok.
  apply andb_true_iff in Hok. destruct Hok as [Hs Hrest].
  simpl map. rewrite for_loop_entries_step, for_loop_step.
  cbn [record_of name snaptime entry_name entry_snaptime].
  destruct (n =? "current")%string; [now apply IH|].
  destruct (name_rejected snapname n); [now apply IH|].
  destruct time as [t0|]; [|discriminate]. simpl.
  destruct (Qgtb ((time_time w (ticks st) - t0) / 60 / 60 / 24) (inject_Z d));
    now apply IH.
Qed.

End Beyond.

(** * The age filter in double precision *)

Section DoublePrecision.

Context {AuthArgs VM : Type}.
Local Open Scope list_scope.
Implicit Types (st : state AuthArgs VM) (clock : nat -> spec_float)
  (s : snapshot64) (d : Z) (x : spec_float).






End DoublePrecision.

(** * The claims on the cluster of the scenario *)

Import Scenario.
Local Open Scope list_scope.

(** Scenario A, with every call of the run. *)
Example run_scenario_A :
  run cluster (by_vmid None 2)
  = (ExitJson (mkExit false None (Some ["daily_1"])),
     mkState 2 [ev_new (by_vmid None 2); ev_get_vm (IStr "100");
                ev_snapshot_get "pve" (IStr "100"); ev_time; ev_time]).
Proof. vm_compute. reflexivity. Qed.

(** Scenario B: the prefix ["daily_"] and [older_than = 0]. *)
Example run_scenario_B :
  fst (run cluster (by_vmid (Some "daily_") 0))
  = ExitJson (mkExit false None (Some ["daily_1"; "daily_2"])).
Proof. vm_compute. reflexivity. Qed.

(** A snapshot exactly three days old is not older than three days. *)
Example run_three_days :
  fst (run cluster (by_vmid None 3)) = ExitJson (mkExit false None (Some [])).
Proof. vm_compute. reflexivity. Qed.

(** Resolution by name, for a name the helper knows. *)
Example run_by_known_hostname :
  run cluster (by_hostname "web" 2)
  = (ExitJson (mkExit false None (Some ["daily_1"])),
     mkState 2 [ev_new (by_hostname "web" 2); ev_get_vmid (Some "web");
                ev_get_vm (IInt 100); ev_snapshot_get "pve" (IInt 100);
                ev_time; ev_time]).
Proof. vm_compute. reflexivity. Qed.

Lemma current_never_in_results_witness : ~ In "current" ["daily_1"].
Proof.
  apply (current_never_in_results cluster (by_vmid None 2)
           (mkExit false None (Some ["daily_1"]))).
  - vm_compute. reflexivity.
  - reflexivity.
Defined.

Lemma results_start_with_snapname_witness :
  (forall n, In n ["daily_1"; "daily_2"] ->
     String.prefix "daily_" n = true /\ exists rest, n = ("daily_" ++ rest)%string)
  /\ (forall n, String.prefix "daily_" n = false -> ~ In n ["daily_1"; "daily_2"]).
Proof.
  apply (results_start_with_snapname cluster (by_vmid (Some "daily_") 0) "daily_"
           (mkExit false None (Some ["daily_1"; "daily_2"]))).
  - reflexivity.
  - vm_compute. reflexivity.
  - reflexivity.
Defined.

Lemma changed_is_always_false_witness :
  changed (mkExit false (Some "Snapshots could not be fetched") None) = false
  /\ (mkExit false (Some "Snapshots could not be fetched") None
        = mkExit false (Some "Vmid could not be fetched") None
      \/ mkExit false (Some "Snapshots could not be fetched") None
         = mkExit false (Some "Snapshots could not be fetched") None
      \/ exists r, mkExit false (Some "Snapshots could not be fetched") None
                   = mkExit false None (Some r)).
Proof.
  apply (changed_is_always_false bare_cluster (by_vmid None 0)).
  vm_compute. reflexivity.
Defined.


Lemma scenario_A_lists_daily_1_witness :
  (forall st : state unit string,
      exists st', for_loop cluster None 2 (raw t0) [] st = Next ["daily_1"] st')
  /\ fst (run cluster (by_vmid None 2)) = ExitJson (mkExit false None (Some ["daily_1"])).
Proof.
  apply (scenario_A_lists_daily_1 cluster (by_vmid None 2) (helper (Some (raw t0)))
           (IStr "100") "pve" t0).
  - reflexivity.
  - intros k. reflexivity.
  - reflexivity.
  - apply (resolves_vmid (helper (Some (raw t0))) (by_vmid None 2)). reflexivity.
  - reflexivity.
  - reflexivity.
  - reflexivity.
  - reflexivity.
Defined.

Lemma empty_fetch_is_soft_witness :
  soft_outcome (fst (run bare_cluster (by_vmid None 0))) "Snapshots could not be fetched"
  /\ ~ In ev_time (trace (snd (run bare_cluster (by_vmid None 0))))
  /\ soft_outcome (fst (run bare_cluster anonymous)) "Vmid could not be fetched".
Proof.
  destruct (empty_fetch_is_soft bare_cluster (by_vmid None 0) (helper (Some []))
              (IStr "100") "pve" (Some []))
    as (Hsoft & _ & Hquiet & _ & Hshape).
  - reflexivity.
  - reflexivity.
  - apply (resolves_vmid (helper (Some [])) (by_vmid None 0)). reflexivity.
  - reflexivity.
  - reflexivity.
  - reflexivity.
  - split; [exact Hsoft|]. split; [exact Hquiet|].
    apply (Hshape anonymous (helper (Some []))); reflexivity.
Defined.

(** C3, as stated, fails: the helper does not know the name [db] and
    answers [None]; the run does not stop there but calls [get_vm] with
    [None], and ends on the failure of that call. *)
Lemma unresolved_hostname_is_not_soft :
  HAS_PROXMOX_SNAP cluster = true
  /\ truthy_opt (vmid (by_hostname "db" 2)) = false
  /\ truthy_opt (hostname (by_hostname "db" 2)) = true
  /\ new_ProxmoxSnapAnsible cluster (by_hostname "db" 2) = Returns (helper (Some (raw t0)))
  /\ get_vmid (helper (Some (raw t0))) (hostname (by_hostname "db" 2)) = Returns INone
  /\ truthy_ident INone = false
  /\ run cluster (by_hostname "db" 2)
     = (Uncaught "no such instance",
        mkState 0 [ev_new (by_hostname "db" 2); ev_get_vmid (Some "db"); ev_get_vm INone])
  /\ ~ (exists message, soft_outcome (fst (run cluster (by_hostname "db" 2))) message).
Proof.
  repeat split; try reflexivity.
  intros [message E]. vm_compute in E. discriminate.
Qed.

Lemma unidentified_is_soft_resolution_unchecked_witness :
  run cluster anonymous
  = (ExitJson (mkExit false (Some "Vmid could not be fetched") None),
     mkState 0 [ev_new anonymous])
  /\ (exists rest,
        trace (snd (run cluster (by_hostname "db" 2)))
        = [ev_new (by_hostname "db" 2); ev_get_vmid (Some "db"); ev_get_vm INone] ++ rest)
  /\ ~ soft_outcome (fst (run cluster (by_hostname "db" 2))) "Vmid could not be fetched".
Proof.
  split.
  - refine (proj1 (unidentified_is_soft_resolution_unchecked cluster anonymous
                     (helper (Some (raw t0))) _ _ _) _); reflexivity.
  - refine (proj2 (unidentified_is_soft_resolution_unchecked cluster (by_hostname "db" 2)
                     (helper (Some (raw t0))) _ _ _) _ INone _); reflexivity.
Defined.


Lemma hostname_ignored_when_vmid_given_witness :
  fst (run cluster (with_hostname (Some "db") (by_vmid None 2)))
  = fst (run cluster (by_vmid None 2))
  /\ (forall h', ~ In (ev_get_vmid h')
                   (trace (snd (run cluster (with_hostname (Some "db") (by_vmid None 2))))))
  /\ (forall h', ~ In (ev_get_vmid h') (trace (snd (run cluster (by_vmid None 2))))).
Proof.
  apply (hostname_ignored_when_vmid_given cluster (by_vmid None 2) (Some "db")).
  - reflexivity.
  - simpl. split; reflexivity.
Defined.

(** * Beyond the claims, on the clusters *)

(** The list as the API sends it goes through the loop: the live state
    has no time, and none is asked of it. *)
Example loop_on_sent_list :
  answer (for_loop_entries cluster None 2 (Cases.sent t0) [] initial) = inl ["daily_1"].
Proof. vm_compute. reflexivity. Qed.

(** A snapshot without a time stops the loop, after the clock was read. *)
Example loop_on_entry_without_time :
  for_loop_entries cluster None 2
    [mkEntry (Some "daily_1") (Some (t0 - 3 * 86400)); mkEntry (Some "daily_2") None]
    [] initial
  = Halt (KeyError "snaptime") (mkState 2 [ev_time; ev_time]).
Proof. vm_compute. reflexivity. Qed.

Lemma helper_failure_is_not_caught_witness :
  fst (run Cases.unreachable (by_vmid None 2)) = Uncaught "connection refused"
  /\ ticks (snd (run Cases.unreachable (by_vmid None 2))) = 0%nat
  /\ ~ In ev_time (trace (snd (run Cases.unreachable (by_vmid None 2)))).
Proof.
  apply (helper_failure_is_not_caught Cases.unreachable (by_vmid None 2)
           "connection refused").
  - reflexivity.
  - apply raises_new. reflexivity.
Defined.

Lemma vmid_message_iff_no_identifier_witness :
  soft_outcome (fst (run cluster anonymous)) "Vmid could not be fetched".
Proof.
  apply (vmid_message_iff_no_identifier cluster anonymous).
  split; [reflexivity|]. split; [eexists; reflexivity|]. split; reflexivity.
Defined.

Lemma snapshots_message_iff_nothing_fetched_witness :
  soft_outcome (fst (run bare_cluster (by_vmid None 0))) "Snapshots could not be fetched".
Proof.
  apply (snapshots_message_iff_nothing_fetched bare_cluster (by_vmid None 0)).
  split; [reflexivity|].
  exists (helper (Some [])), (IStr "100"), "pve", (Some []).
  split; [reflexivity|]. split; [|repeat split; reflexivity].
  apply (resolves_vmid (helper (Some [])) (by_vmid None 0)). reflexivity.
Defined.

Lemma results_come_from_the_fetch_witness :
  exists p (v : ident) (vm : string) l,
    new_ProxmoxSnapAnsible cluster (by_vmid None 2) = Returns p
    /\ resolves p (by_vmid None 2) v
    /\ get_vm p v = Returns vm
    /\ snapshot_get p vm v = Returns (Some l)
    /\ subseq ["daily_1"] (map name l)
    /\ (NoDup (map name l) -> NoDup ["daily_1"]).
Proof.
  apply (results_come_from_the_fetch cluster (by_vmid None 2) ["daily_1"]).
  vm_compute. reflexivity.
Defined.

Lemma get_vmid_called_iff_witness :
  In (ev_get_vmid (Some "web")) (trace (snd (run cluster (by_hostname "web" 2)))).
Proof.
  apply (get_vmid_called_iff cluster (by_hostname "web" 2) (Some "web")).
  split; [reflexivity|]. split; [eexists; reflexivity|]. repeat split; reflexivity.
Defined.

Lemma list_fetched_for_the_instance_found_witness :
  exists p,
    new_ProxmoxSnapAnsible cluster (by_hostname "web" 2) = Returns p
    /\ resolves p (by_hostname "web" 2) (IInt 100)
    /\ get_vm p (IInt 100) = Returns "pve"
    /\ exists before rest,
         trace (snd (run cluster (by_hostname "web" 2)))
         = before ++ ev_get_vm (IInt 100) :: ev_snapshot_get "pve" (IInt 100) :: rest.
Proof.
  apply (list_fetched_for_the_instance_found cluster (by_hostname "web" 2) "pve" (IInt 100)).
  vm_compute. right. right. right. left. reflexivity.
Defined.

Lemma clock_read_once_per_examined_record_witness :
  ticks (snd (run cluster (by_vmid (Some "daily_1") 0))) = 1%nat
  /\ (ticks (snd (run cluster (by_vmid (Some "daily_1") 0))) <= 3)%nat
  /\ forall r, delivers (fst (run cluster (by_vmid (Some "daily_1") 0))) r ->
               (length r <= ticks (snd (run cluster (by_vmid (Some "daily_1") 0))))%nat.
Proof.
  apply (clock_read_once_per_examined_record cluster (by_vmid (Some "daily_1") 0)
           (helper (Some (raw t0))) (IStr "100") "pve" (raw t0)).
  - reflexivity.
  - reflexivity.
  - apply (resolves_vmid (helper (Some (raw t0))) (by_vmid (Some "daily_1") 0)).
    reflexivity.
  - reflexivity.
  - reflexivity.
  - discriminate.
Defined.

Lemma empty_strings_count_as_absent_witness :
  fst (run cluster (without_blanks (mkModule tt (Some "") (Some "web") 30 (Some "") 2)))
  = fst (run cluster (mkModule tt (Some "") (Some "web") 30 (Some "") 2)).
Proof.
  apply (empty_strings_count_as_absent cluster
           (mkModule tt (Some "") (Some "web") 30 (Some "") 2)).
  reflexivity.
Defined.

Lemma raising_older_than_only_removes_witness :
  exists r',
    delivers (fst (run cluster (with_older_than 2 (by_vmid None 0)))) r'
    /\ subseq r' ["daily_1"; "daily_2"].
Proof.
  apply (raising_older_than_only_removes cluster (by_vmid None 0) 2 ["daily_1"; "daily_2"]).
  - simpl. lia.
  - reflexivity.
  - vm_compute. reflexivity.
Defined.

Lemma narrowing_snapname_only_removes_witness :
  exists r',
    delivers (fst (run (Cases.ticking t0 (Some (raw t0)))
                       (with_snapname (Some "daily_2") (by_vmid (Some "daily_") 0)))) r'
    /\ subseq r' ["daily_1"; "daily_2"].
Proof.
  apply (narrowing_snapname_only_removes (Cases.ticking t0 (Some (raw t0)))
           (by_vmid (Some "daily_") 0) "daily_2" ["daily_1"; "daily_2"]).
  - intros i j Hij. simpl. apply Qplus_le_r. rewrite <- Zle_Qle. lia.
  - reflexivity.
  - reflexivity.
  - vm_compute. reflexivity.
Defined.

Lemma loop_on_entries_completes_iff_witness :
  exists r (st' : state unit string),
    for_loop_entries cluster None 2 (Cases.sent t0) [] initial = Next r st'.
Proof.
  apply (proj1 (loop_on_entries_completes_iff cluster None 2 (Cases.sent t0) [] initial)).
  reflexivity.
Defined.

Lemma missing_times_are_not_read_witness :
  for_loop_entries cluster None 2 (Cases.sent t0) [] initial
  = for_loop cluster None 2 (map (record_of 0) (Cases.sent t0)) [] initial.
Proof.
  apply (missing_times_are_not_read cluster None 2 (Cases.sent t0) 0).
  reflexivity.
Defined.

(** * The age filter in double precision, on the clusters *)

(** In double precision scenario A comes out as in exact arithmetic. *)
Example loop64_scenario_A :
  for_loop64 (Cases.frozen64 1700000000) None 2 (Cases.raw64 1700000000) []
    (initial : state unit string)
  = Next ["daily_1"] (mkState 2 [ev_time; ev_time]).
Proof. vm_compute. reflexivity. Qed.

(** An age of two days to the second is not above two days; one second
    more is. *)
Example loop64_two_days_to_the_second :
  for_loop64 (Cases.frozen64 1700000000) None 2
    [mkSnapshot64 "a" (Int (1700000000 - 2 * 86400));
     mkSnapshot64 "b" (Int (1700000000 - 2 * 86400 - 1))] []
    (initial : state unit string)
  = Next ["b"] (mkState 2 [ev_time; ev_time]).
Proof. vm_compute. reflexivity. Qed.

(** An [int] too large for a [float] stops the loop, after the clock was
    read. *)
Example loop64_overflow :
  for_loop64 (Cases.frozen64 1700000000) None 2
    [mkSnapshot64 "a" (Int (10 ^ 400))] [] (initial : state unit string)
  = Halt (Uncaught "OverflowError") (mkState 1 [ev_time]).
Proof. vm_compute. reflexivity. Qed.



(** The conversion of an [int] rounds too: the clock reads
    [2^60 + 86528] and the snapshot is stamped [2^60 + 128], exactly one
    day before; the [float] of the stamp is [2^60], the computed age is
    above one day, and with [older_than = 1] the name is in. *)
Example exact_day_is_lost_in_conversion :
  valid_binary 53 1024 (float_of_int (2 ^ 60 + 86528)) = true
  /\ double_value (float_of_int (2 ^ 60 + 86528)) = Some (inject_Z (2 ^ 60 + 86528))
  /\ ((inject_Z (2 ^ 60 + 86528) - inject_Z (2 ^ 60 + 128)) / 86400 == inject_Z 1)%Q
  /\ for_loop64 (fun _ => float_of_int (2 ^ 60 + 86528)) None 1
       [mkSnapshot64 "yesterday" (Int (2 ^ 60 + 128))] []
       (initial : state unit string)
     = Next ["yesterday"] (mkState 1 [ev_time]).
Proof.
  repeat split; vm_compute; reflexivity.
Qed.
